(** * Educational video generator: pipeline and web layer

    A shallow embedding of [backend/ai_pipeline.py], [backend/crud.py],
    [backend/models.py], [backend/schemas.py] and [backend/main.py], and the
    properties the specification states about them.

    Python [str] values are Rocq strings; a character stands for the code
    point of the same number (below 256).  [bytes] values are lists of
    bytes.  Python [int] is [Z].  Effects (file system, process
    environment, database tables, calls of outside services) are threaded
    through an explicit world, with exceptions as a result constructor.

    The exceptions modelled are the ones the code raises itself or that
    follow from the Python operations it performs: the missing key and the
    status check of [generate_audio], the index and division errors of
    [assemble_video], the non-zero exit under [check=True], the removal of
    a file that is not there, the HTTP 400 of the create-user endpoint and
    the unique constraint on [User.email].  The outside services (language
    model, diffusion model, HTTP server, media tool, random source) are
    functions that answer every call; a failure inside them, or of the
    operating system while a file is written, is outside the model.  The
    tables are the lists of their rows in insertion order; the engine set up
    in [backend/database.py] is not needed beyond that. *)

From Stdlib Require Import ZArith QArith Ascii String DecimalString DecimalPos DecimalZ Sorted.
From Stdlib Require Strings.Byte.
From stdpp Require Import base gmap strings list.

Local Open Scope Z_scope.

(** ** Python built-ins used by the code *)

Module Py.

(** [str(n)] for an [int]. *)
Definition str_of_int (n : Z) : string :=
  NilZero.string_of_int (Z.to_int n).

(** [str.isspace] on one character, for code points below 256. *)
Definition isspace (c : ascii) : bool :=
  let n := N_of_ascii c in
  ((9 <=? n) && (n <=? 13) || (28 <=? n) && (n <=? 32)
   || (n =? 133) || (n =? 160))%N.

(** [s.lstrip()] *)
Fixpoint lstrip (s : string) : string :=
  match s with
  | EmptyString => EmptyString
  | String c s' => if isspace c then lstrip s' else s
  end.

(** [s.rstrip()] *)
Fixpoint rstrip (s : string) : string :=
  match s with
  | EmptyString => EmptyString
  | String c s' =>
      match rstrip s' with
      | EmptyString => if isspace c then EmptyString else String c EmptyString
      | r => String c r
      end
  end.

(** [s.strip()] *)
Definition strip (s : string) : string := rstrip (lstrip s).

(** Truth value of a [str]: non-empty. *)
Definition truthy (s : string) : bool :=
  match s with EmptyString => false | String _ _ => true end.

(** [s.split(sep)] for a one-character separator. *)
Fixpoint split (sep : ascii) (s : string) : list string :=
  match s with
  | EmptyString => [EmptyString]
  | String c s' =>
      if Ascii.eqb c sep then EmptyString :: split sep s'
      else match split sep s' with
           | seg :: segs => String c seg :: segs
           | [] => [String c EmptyString]
           end
  end.

(** [sep.join(segs)] *)
Fixpoint join (sep : string) (segs : list string) : string :=
  match segs with
  | [] => EmptyString
  | [seg] => seg
  | seg :: segs' => seg +:+ sep +:+ join sep segs'
  end.

(** [s.startswith(p)] *)
Definition startswith (p s : string) : bool := String.prefix p s.

(** [s.endswith("/")]-style test on the last character. *)
Fixpoint endswith_char (c : ascii) (s : string) : bool :=
  match s with
  | EmptyString => false
  | String d EmptyString => Ascii.eqb d c
  | String _ s' => endswith_char c s'
  end.

(** [s.replace(old, new)] for a non-empty [old]: occurrences are replaced
    left to right, without overlap.  [skip] counts the characters of an
    occurrence that was just replaced and remain to be dropped. *)
Fixpoint replace_from (old new : string) (skip : nat) (s : string) : string :=
  match s with
  | EmptyString => EmptyString
  | String c s' =>
      match skip with
      | S k => replace_from old new k s'
      | O =>
          if String.prefix old s
          then new +:+ replace_from old new (String.length old - 1) s'
          else String c (replace_from old new O s')
      end
  end.

Definition replace (old new s : string) : string := replace_from old new O s.

(** [s[:n]] on lists, as used by the slice [[:3]]. *)
Definition slice_to {A} (n : nat) (l : list A) : list A := take n l.

End Py.

(** ** [os.path] (POSIX flavour) *)

Module OsPath.

Definition sep : ascii := "/"%char.

(** [os.path.join(a, b)] *)
Definition join (a b : string) : string :=
  if Py.startswith "/" b then b
  else if negb (Py.truthy a) || Py.endswith_char sep a then a +:+ b
  else a +:+ "/" +:+ b.

(** [p[:p.rfind('/') + 1]] *)
Fixpoint head_of (p : string) : string :=
  match p with
  | EmptyString => EmptyString
  | String c p' =>
      match head_of p' with
      | EmptyString => if Ascii.eqb c sep then String c EmptyString else EmptyString
      | h => String c h
      end
  end.

(** [head == '/' * len(head)] *)
Fixpoint all_sep (s : string) : bool :=
  match s with
  | EmptyString => true
  | String c s' => Ascii.eqb c sep && all_sep s'
  end.

(** [head.rstrip('/')] *)
Fixpoint rstrip_sep (s : string) : string :=
  match s with
  | EmptyString => EmptyString
  | String c s' =>
      match rstrip_sep s' with
      | EmptyString => if Ascii.eqb c sep then EmptyString else String c EmptyString
      | r => String c r
      end
  end.

(** [os.path.dirname(p)] *)
Definition dirname (p : string) : string :=
  let head := head_of p in
  if Py.truthy head && negb (all_sep head) then rstrip_sep head else head.

End OsPath.

(** ** Exceptions, the world and the effect monad *)

(** JSON values, for request bodies. *)
#[warnings="-register-all"]
Inductive json :=
| JStr (s : string)
| JNum (q : Q)
| JBool (b : bool)
| JObj (fields : list (string * json)).

Record request := {
  req_url : string;
  req_headers : list (string * string);
  req_json : json
}.

Record response := {
  status_code : Z;
  content : list Byte.byte;
  resp_text : string                   (* response.text *)
}.

(** One argument of an external command line.  [ArgRecip d] is the text
    [str(1/d)] of the float quotient, kept symbolic. *)
Inductive arg :=
| Arg (s : string)
| ArgRecip (d : Z).

Inductive exn :=
| RuntimeError (msg : string)
| IndexError
| ZeroDivisionError
| CalledProcessError (returncode : Z) (cmd : list arg)
| FileNotFoundError (path : string)
| IntegrityError
| HTTPException (status_code : Z) (detail : string).

Inductive result (A : Type) :=
| Ok (a : A)
| Raise (e : exn).
Arguments Ok {A} a.
Arguments Raise {A} e.

(** What the program does to the outside, in order. *)
Inductive event :=
| EvMakedirs (path : string)
| EvTextGeneration (model input : string)
| EvImageGeneration (model prompt : string)
| EvImageSave (path : string)
| EvHttpPost (req : request)
| EvFileWrite (path : string)
| EvRun (cmd : list arg)
| EvRemove (path : string).

(** Rows of the two tables of [models.py]. *)
Record User := {
  user_id_ : Z;
  user_email : string;
  user_created_at : Z;
  user_video_quota : Z
}.

Record Video := {
  video_id_ : Z;
  video_user_id : Z;
  video_title : string;
  video_original_text : string;
  video_url : option string;
  video_template : string;
  video_status : string;
  video_created_at : Z
}.

Record world := {
  files : gmap string (list Byte.byte);     (* regular files and their bytes *)
  dirs : gset string;                  (* directories created so far *)
  environ : gmap string string;        (* process environment *)
  users : list User;                   (* table "users" *)
  videos : list Video;                 (* table "videos" *)
  trace : list event;                  (* outside calls made so far *)
  urandom_reads : nat;                 (* 16-byte reads of os.urandom so far *)
  utcnow : Z                           (* datetime.datetime.utcnow() *)
}.

Definition M (A : Type) : Type := world -> result A * world.

Definition ret {A} (a : A) : M A := fun w => (Ok a, w).
Definition raise {A} (e : exn) : M A := fun w => (Raise e, w).
Definition bind {A B} (m : M A) (k : A -> M B) : M B :=
  fun w => match m w with
           | (Ok a, w') => k a w'
           | (Raise e, w') => (Raise e, w')
           end.

Notation "x <- m ;; k" := (bind m (fun x => k))
  (at level 100, m at next level, right associativity).
Notation "m ;;; k" := (bind m (fun _ => k))
  (at level 100, right associativity).

Definition with_files (f : gmap string (list Byte.byte) -> gmap string (list Byte.byte)) (w : world) : world :=
  {| files := f (files w); dirs := dirs w; environ := environ w;
     users := users w; videos := videos w; trace := trace w;
     urandom_reads := urandom_reads w; utcnow := utcnow w |}.

Definition with_dirs (f : gset string -> gset string) (w : world) : world :=
  {| files := files w; dirs := f (dirs w); environ := environ w;
     users := users w; videos := videos w; trace := trace w;
     urandom_reads := urandom_reads w; utcnow := utcnow w |}.

Definition with_users (f : list User -> list User) (w : world) : world :=
  {| files := files w; dirs := dirs w; environ := environ w;
     users := f (users w); videos := videos w; trace := trace w;
     urandom_reads := urandom_reads w; utcnow := utcnow w |}.

Definition with_videos (f : list Video -> list Video) (w : world) : world :=
  {| files := files w; dirs := dirs w; environ := environ w;
     users := users w; videos := f (videos w); trace := trace w;
     urandom_reads := urandom_reads w; utcnow := utcnow w |}.

Definition with_trace (f : list event -> list event) (w : world) : world :=
  {| files := files w; dirs := dirs w; environ := environ w;
     users := users w; videos := videos w; trace := f (trace w);
     urandom_reads := urandom_reads w; utcnow := utcnow w |}.

Definition with_urandom_reads (f : nat -> nat) (w : world) : world :=
  {| files := files w; dirs := dirs w; environ := environ w;
     users := users w; videos := videos w; trace := trace w;
     urandom_reads := f (urandom_reads w); utcnow := utcnow w |}.

Definition emit (e : event) : M unit :=
  fun w => (Ok tt, with_trace (fun t => t ++ [e]) w).

(** [os.getenv(name)] *)
Definition getenv (name : string) : M (option string) :=
  fun w => (Ok (environ w !! name), w).

(** [os.makedirs(path, exist_ok=True)] *)
Definition makedirs (path : string) : M unit :=
  emit (EvMakedirs path) ;;;
  fun w => (Ok tt, with_dirs (fun d => {[path]} ∪ d) w).

(** [with open(path, "wb") as f: f.write(data)] *)
Definition write_file (path : string) (data : list Byte.byte) : M unit :=
  emit (EvFileWrite path) ;;;
  fun w => (Ok tt, with_files (fun fs => <[path := data]> fs) w).

(** [os.remove(path)] *)
Definition remove (path : string) : M unit :=
  emit (EvRemove path) ;;;
  fun w => match files w !! path with
           | Some _ => (Ok tt, with_files (fun fs => delete path fs) w)
           | None => (Raise (FileNotFoundError path), w)
           end.

(** The outside collaborators: the hosted language model, the hosted
    diffusion model, the HTTP endpoint, the command-line media tool and the
    operating system's random source. *)
Record services := {
  (* generated_text of the first sequence returned for an input *)
  text_generation : string -> string -> string;
  (* encoded first image returned for a prompt *)
  diffusion : string -> string -> list Byte.byte;
  (* response of the server to a POST *)
  http_post : request -> response;
  (* exit status of a command run on a file system, and the bytes it leaves
     in its output file when it exits with 0 *)
  tool_exit : list arg -> gmap string (list Byte.byte) -> Z;
  tool_output : list arg -> gmap string (list Byte.byte) -> list Byte.byte;
  (* the n-th 16-byte read of os.urandom, as a big-endian integer *)
  urandom16 : nat -> N
}.

(** ** [uuid.uuid4] and [str] of a UUID *)

Module Uuid.

Local Open Scope N_scope.

Definition hex_digit (d : N) : ascii :=
  match d with
  | 0 => "0" | 1 => "1" | 2 => "2" | 3 => "3" | 4 => "4" | 5 => "5"
  | 6 => "6" | 7 => "7" | 8 => "8" | 9 => "9" | 10 => "a" | 11 => "b"
  | 12 => "c" | 13 => "d" | 14 => "e" | _ => "f"
  end%char.

(** ['%0<width>x' % x] for [x < 16 ^ width] *)
Fixpoint hex_pad (width : nat) (x : N) : string :=
  match width with
  | O => EmptyString
  | S k => hex_pad k (x / 16) +:+ String (hex_digit (x mod 16)) EmptyString
  end.

(** [UUID(bytes=b, version=4).int], from the integer value of [b] *)
Definition of_bytes_v4 (int : N) : N :=
  let int := N.ldiff int (N.shiftl 0xc000 48) in
  let int := N.lor int (N.shiftl 0x8000 48) in
  let int := N.ldiff int (N.shiftl 0xf000 64) in
  N.lor int (N.shiftl 4 76).

(** [str(u)] *)
Definition to_str (int : N) : string :=
  let hex := hex_pad 32 int in
  String.substring 0 8 hex +:+ "-" +:+ String.substring 8 4 hex +:+ "-" +:+
  String.substring 12 4 hex +:+ "-" +:+ String.substring 16 4 hex +:+ "-" +:+
  String.substring 20 12 hex.

(** [uuid.uuid4()]: one 16-byte read of the random source *)
Definition uuid4 (svc : services) : M N :=
  fun w => (Ok (of_bytes_v4 (urandom16 svc (urandom_reads w) mod 2 ^ 128)),
            with_urandom_reads S w).

End Uuid.

(** ** [backend/ai_pipeline.py] *)

Module ai_pipeline.
Section WithServices.

Variable svc : services.

(** [generator(input_text, max_length=512, num_return_sequences=1)[0]['generated_text']] *)
Definition enhance_text (input_text : string) (model_name : string) : M string :=
  emit (EvTextGeneration model_name input_text) ;;;
  ret (text_generation svc model_name input_text).

Definition voice_settings : json :=
  JObj [("stability", JNum (1 # 2)); ("similarity_boost", JNum (1 # 2));
        ("style", JNum (1 # 2)); ("use_speaker_boost", JBool true)].

(** [requests.post(url, headers=headers, json=payload)] *)
Definition requests_post (url : string) (headers : list (string * string))
    (payload : json) : M response :=
  let req := {| req_url := url; req_headers := headers; req_json := payload |} in
  emit (EvHttpPost req) ;;;
  ret (http_post svc req).

(** The parameter [speed] of the source is not used by its body and is left
    out.  [api_key = None] is the default of the source. *)
Definition generate_audio (text voice out_path : string)
    (api_key : option string) : M string :=
  api_key <- match api_key with
             | None => getenv "ELEVENLABS_API_KEY"
             | Some _ => ret api_key
             end ;;
  let api_key := default EmptyString api_key in
  if negb (Py.truthy api_key)
  then raise (RuntimeError "ElevenLabs API key not set. Set ELEVENLABS_API_KEY as env variable or pass as argument.")
  else
    let url := "https://api.elevenlabs.io/v1/text-to-speech/" +:+ voice in
    let headers := [("xi-api-key", api_key); ("Content-Type", "application/json")] in
    let payload := JObj [("text", JStr text);
                         ("voice_settings", voice_settings);
                         ("model_id", JStr "eleven_multilingual_v2")] in
    response <- requests_post url headers payload ;;
    if negb (status_code response =? 200)
    then raise (RuntimeError ("TTS API error: " +:+ Py.str_of_int (status_code response)
                              +:+ " " +:+ resp_text response))
    else
      write_file out_path (content response) ;;;
      ret out_path.

(** [pipe(prompt).images[0]] *)
Definition run_pipe (model_id prompt : string) : M (list Byte.byte) :=
  emit (EvImageGeneration model_id prompt) ;;;
  ret (diffusion svc model_id prompt).

(** [image.save(img_path)] *)
Definition image_save (image : list Byte.byte) (img_path : string) : M unit :=
  emit (EvImageSave img_path) ;;;
  fun w => (Ok tt, with_files (fun fs => <[img_path := image]> fs) w).

(** The body of [for i, prompt in enumerate(prompts)], from index [i] on. *)
Fixpoint generate_images_loop (model_id out_dir : string) (i : nat)
    (prompts : list string) (image_paths : list string) : M (list string) :=
  match prompts with
  | [] => ret image_paths
  | prompt :: prompts' =>
      image <- run_pipe model_id prompt ;;
      let img_path :=
        OsPath.join out_dir ("img_" +:+ Py.str_of_int (Z.of_nat i + 1) +:+ ".png") in
      image_save image img_path ;;;
      generate_images_loop model_id out_dir (S i) prompts' (image_paths ++ [img_path])
  end.

Definition generate_images (prompts : list string) (out_dir : string)
    (model_id : string) : M (list string) :=
  makedirs out_dir ;;;
  generate_images_loop model_id out_dir 0 prompts [].

(** [image_paths[0]] *)
Definition first_item (image_paths : list string) : M string :=
  match image_paths with
  | [] => raise IndexError
  | p :: _ => ret p
  end.

(** [a // b] *)
Definition floordiv (a b : Z) : M Z :=
  if b =? 0 then raise ZeroDivisionError else ret (a / b).

(** [str(1/d)] *)
Definition str_recip (d : Z) : M arg :=
  if d =? 0 then raise ZeroDivisionError else ret (ArgRecip d).

(** The file a command line names last is the one the tool writes. *)
Definition output_of (cmd : list arg) : option string :=
  match last cmd with
  | Some (Arg p) => Some p
  | _ => None
  end.

(** [subprocess.run(cmd, check=True)] *)
Definition subprocess_run (cmd : list arg) : M unit :=
  emit (EvRun cmd) ;;;
  fun w =>
    let code := tool_exit svc cmd (files w) in
    if code =? 0
    then (Ok tt,
          match output_of cmd with
          | Some p => with_files (fun fs => <[p := tool_output svc cmd fs]> fs) w
          | None => w
          end)
    else (Raise (CalledProcessError code cmd), w).

(** The parameter [music_path] of the source is not used by its body and
    is left out. *)
Definition assemble_video (image_paths : list string) (audio_path out_path : string)
    (duration : Z) : M string :=
  first <- first_item image_paths ;;
  let img_pattern := OsPath.join (OsPath.dirname first) "img_%d.png" in
  let video_tmp := Py.replace ".mp4" "_tmp.mp4" out_path in
  let img_count := Z.of_nat (length image_paths) in
  img_duration <- floordiv duration img_count ;;
  framerate <- str_recip img_duration ;;
  let ffmpeg_img_cmd :=
    [Arg "ffmpeg"; Arg "-y"; Arg "-framerate"; framerate; Arg "-i"; Arg img_pattern;
     Arg "-c:v"; Arg "libx264"; Arg "-r"; Arg "30"; Arg "-pix_fmt"; Arg "yuv420p";
     Arg video_tmp] in
  subprocess_run ffmpeg_img_cmd ;;;
  let ffmpeg_audio_cmd :=
    [Arg "ffmpeg"; Arg "-y"; Arg "-i"; Arg video_tmp; Arg "-i"; Arg audio_path;
     Arg "-c:v"; Arg "copy"; Arg "-c:a"; Arg "aac"; Arg "-shortest"; Arg out_path] in
  subprocess_run ffmpeg_audio_cmd ;;;
  remove video_tmp ;;;
  ret out_path.

(** The returned dict. *)
Record pipeline_result := {
  job_id : string;
  video_path : string;
  image_paths : list string;
  audio_path : string;
  prompts : list string;
  enhanced_text : string
}.

(** Step 2 of the pipeline: the list comprehension and its slice
    [[f"{template} educational image: {line.strip()}"
      for line in enhanced_text.split('.') if line.strip()][:3]] *)
Definition extract_prompts (template enhanced_text : string) : list string :=
  Py.slice_to 3
    (map (fun line => template +:+ " educational image: " +:+ Py.strip line)
         (List.filter (fun line => Py.truthy (Py.strip line))
                      (Py.split "." enhanced_text))).

(** [user_id] is accepted and not used, as in the source. *)
Definition process_video_pipeline (text template voice_type user_id : string)
    (out_dir : string) (duration : Z) (elevenlabs_api_key : option string)
    : M pipeline_result :=
  u <- Uuid.uuid4 svc ;;
  let job_id := Uuid.to_str u in
  let job_dir := OsPath.join out_dir job_id in
  makedirs job_dir ;;;
  enhanced_text <- enhance_text text "gpt2" ;;
  let prompts := extract_prompts template enhanced_text in
  image_paths <- generate_images prompts job_dir "stabilityai/stable-diffusion-xl-base-1.0" ;;
  let audio_path := OsPath.join job_dir "audio.mp3" in
  generate_audio enhanced_text voice_type audio_path elevenlabs_api_key ;;;
  let video_path := OsPath.join job_dir "video.mp4" in
  assemble_video image_paths audio_path video_path duration ;;;
  ret {| job_id := job_id; video_path := video_path; image_paths := image_paths;
         audio_path := audio_path; prompts := prompts; enhanced_text := enhanced_text |}.

End WithServices.
End ai_pipeline.

(** ** [backend/schemas.py] *)

Module schemas.

Record VideoCreate := {
  title : string;
  original_text : string;
  template : string
}.

Record UserCreate := { email : string }.

End schemas.

(** ** [backend/crud.py], over the tables of [backend/models.py] *)

Module crud.

(** Primary key given to a new row: one more than the largest in use. *)
Definition next_id (ids : list Z) : Z := 1 + foldr Z.max 0 ids.

(** [db.query(User).filter(User.email == email).first()] *)
Definition get_user_by_email (email : string) : M (option User) :=
  fun w => (Ok (head (List.filter (fun u => String.eqb (user_email u) email) (users w))), w).

(** [db.add(db_user); db.commit(); db.refresh(db_user)].  The column
    [email] is declared [unique=True]: the commit of a second row with
    the same email fails.  [video_quota] and [created_at] take their
    column defaults. *)
Definition create_user (user : schemas.UserCreate) : M User :=
  fun w =>
    let db_user := {| user_id_ := next_id (map user_id_ (users w));
                      user_email := schemas.email user;
                      user_created_at := utcnow w;
                      user_video_quota := 10 |} in
    if existsb (fun u => String.eqb (user_email u) (schemas.email user)) (users w)
    then (Raise IntegrityError, w)
    else (Ok db_user, with_users (fun us => us ++ [db_user]) w).

(** [.offset(skip)]: a negative offset counts as none. *)
Definition offset {A} (skip : Z) (l : list A) : list A := drop (Z.to_nat skip) l.

(** [.limit(limit)]: a negative limit is no limit. *)
Definition limit {A} (n : Z) (l : list A) : list A :=
  if n <? 0 then l else take (Z.to_nat n) l.

Definition get_videos_by_user (user_id : Z) (skip lim : Z) : M (list Video) :=
  fun w => (Ok (limit lim (offset skip
                 (List.filter (fun v => video_user_id v =? user_id) (videos w)))), w).

(** [models.Video] built from the fields of [video] and [user_id]:
    [video_url] is not given and [status] takes its column default. *)
Definition create_user_video (video : schemas.VideoCreate) (user_id : Z) : M Video :=
  fun w =>
    let db_video := {| video_id_ := next_id (map video_id_ (videos w));
                       video_user_id := user_id;
                       video_title := schemas.title video;
                       video_original_text := schemas.original_text video;
                       video_url := None;
                       video_template := schemas.template video;
                       video_status := "processing";
                       video_created_at := utcnow w |} in
    (Ok db_video, with_videos (fun vs => vs ++ [db_video]) w).

End crud.

(** ** [backend/main.py] *)

Module main.

Definition create_user (user : schemas.UserCreate) : M User :=
  db_user <- crud.get_user_by_email (schemas.email user) ;;
  match db_user with
  | Some _ => raise (HTTPException 400 "Email already registered")
  | None => crud.create_user user
  end.

Definition read_user_videos (user_id : Z) (skip limit : Z) : M (list Video) :=
  videos <- crud.get_videos_by_user user_id skip limit ;;
  ret videos.

Record GenerateVideoRequest := {
  text : string;
  template : string;
  voice_type : string;
  user_id : string
}.

(** The key literal of the source, a non-empty string; its characters
    are not reproduced here. *)
Definition elevenlabs_api_key : string := "sk_redacted".

Definition generate_video (svc : services) (req : GenerateVideoRequest)
    : M ai_pipeline.pipeline_result :=
  let out_dir := OsPath.join "static" "videos" in
  result <- ai_pipeline.process_video_pipeline svc
              (text req) (template req) (voice_type req) (user_id req)
              out_dir 60 (Some elevenlabs_api_key) ;;
  ret result.

Record status_reply := {
  reply_video_id : string;
  reply_status : string;
  reply_video_url : string
}.

Definition get_video_status (video_id : string) : M status_reply :=
  ret {| reply_video_id := video_id; reply_status := "completed";
         reply_video_url := "/videos/sample.mp4" |}.

End main.

(** ** Sample data *)

Module Sample.

Definition w0 : world :=
  {| files := ∅; dirs := ∅; environ := ∅; users := []; videos := [];
     trace := []; urandom_reads := 0; utcnow := 1700000000 |}.

(** Services whose HTTP endpoint answers every request with status [st]. *)
Definition svc (st : Z) : services :=
  {| text_generation := fun _ input =>
       input +:+ " Plants make food. They use light.  . Water too. And air.";
     diffusion := fun _ _ => [Byte.x89; Byte.x50];
     http_post := fun _ =>
       {| status_code := st; content := [Byte.x01; Byte.x02]; resp_text := "oops" |};
     tool_exit := fun _ _ => 0;
     tool_output := fun _ _ => [Byte.x03];
     urandom16 := fun n => (N.of_nat n + 0x0123456789abcdef0123456789abcdef)%N |}.

Definition alice : User :=
  {| user_id_ := 1; user_email := "alice@example.org";
     user_created_at := 1600000000; user_video_quota := 10 |}.

Definition w1 : world := with_users (fun _ => [alice]) w0.

Definition req : main.GenerateVideoRequest :=
  {| main.text := "Hello"; main.template := "modern";
     main.voice_type := "Rachel"; main.user_id := "1" |}.

Definition seven_images : list string :=
  ["d/img_1.png"; "d/img_2.png"; "d/img_3.png"; "d/img_4.png";
   "d/img_5.png"; "d/img_6.png"; "d/img_7.png"].

End Sample.

(** ** More sample data *)

Module SampleDb.

Definition video (id user : Z) (title : string) : Video :=
  {| video_id_ := id; video_user_id := user; video_title := title;
     video_original_text := "text"; video_url := None; video_template := "modern";
     video_status := "processing"; video_created_at := 1600000000 |}.

(** Three videos of user 7 around one of user 8. *)
Definition w2 : world :=
  with_videos (fun _ => [video 1 7 "a"; video 2 8 "b"; video 3 7 "c"; video 4 7 "d"]) Sample.w1.

(** A world whose environment holds a key. *)
Definition w_env : world :=
  {| files := ∅; dirs := ∅; environ := {["ELEVENLABS_API_KEY" := "from-env"]};
     users := []; videos := []; trace := []; urandom_reads := 0; utcnow := 1700000000 |}.



End SampleDb.

(** ** Vocabulary of the properties *)


Definition is_raise {A} (r : result A) : Prop :=
  match r with Raise _ => True | Ok _ => False end.

(** The key [generate_audio] ends up with: its argument, or else the
    environment variable, or else nothing. *)
Definition effective_key (api_key : option string) (w : world) : string :=
  default EmptyString
    (match api_key with
     | None => environ w !! "ELEVENLABS_API_KEY"
     | Some _ => api_key
     end).

(** The one request [generate_audio] sends. *)
Definition tts_request (text voice key : string) : request :=
  {| req_url := "https://api.elevenlabs.io/v1/text-to-speech/" +:+ voice;
     req_headers := [("xi-api-key", key); ("Content-Type", "application/json")];
     req_json := JObj [("text", JStr text);
                       ("voice_settings", ai_pipeline.voice_settings);
                       ("model_id", JStr "eleven_multilingual_v2")] |}.

(** The two command lines of [assemble_video]. *)
Definition frames_cmd (first out_path : string) (img_duration : Z) : list arg :=
  [Arg "ffmpeg"; Arg "-y"; Arg "-framerate"; ArgRecip img_duration; Arg "-i";
   Arg (OsPath.join (OsPath.dirname first) "img_%d.png");
   Arg "-c:v"; Arg "libx264"; Arg "-r"; Arg "30"; Arg "-pix_fmt"; Arg "yuv420p";
   Arg (Py.replace ".mp4" "_tmp.mp4" out_path)].

Definition mux_cmd (audio_path out_path : string) : list arg :=
  [Arg "ffmpeg"; Arg "-y"; Arg "-i"; Arg (Py.replace ".mp4" "_tmp.mp4" out_path);
   Arg "-i"; Arg audio_path; Arg "-c:v"; Arg "copy"; Arg "-c:a"; Arg "aac";
   Arg "-shortest"; Arg out_path].

(** What [assemble_video] does once it has a first image and a non-zero
    per-image duration. *)
Definition run_tools (svc : services) (first audio_path out_path : string)
    (img_duration : Z) : M string :=
  ai_pipeline.subprocess_run svc (frames_cmd first out_path img_duration) ;;;
  ai_pipeline.subprocess_run svc (mux_cmd audio_path out_path) ;;;
  remove (Py.replace ".mp4" "_tmp.mp4" out_path) ;;;
  ret out_path.

(** The file name of the image at position [i] (counted from 0). *)
Definition img_name (i : nat) : string :=
  "img_" +:+ Py.str_of_int (Z.of_nat i + 1) +:+ ".png".

(** The paths of the images of [prompts], the first being at position [i]. *)
Fixpoint image_paths_from (out_dir : string) (i : nat) (prompts : list string) : list string :=
  match prompts with
  | [] => []
  | _ :: prompts' => OsPath.join out_dir (img_name i) :: image_paths_from out_dir (S i) prompts'
  end.

(** The outside calls for the images of [prompts]: per prompt, one call of
    the model and one file saved. *)
Fixpoint image_events (model_id out_dir : string) (i : nat) (prompts : list string) : list event :=
  match prompts with
  | [] => []
  | prompt :: prompts' =>
      EvImageGeneration model_id prompt :: EvImageSave (OsPath.join out_dir (img_name i))
        :: image_events model_id out_dir (S i) prompts'
  end.

Definition generation_prompt (e : event) : option string :=
  match e with EvImageGeneration _ prompt => Some prompt | _ => None end.

Definition saved_path (e : event) : option string :=
  match e with EvImageSave path => Some path | _ => None end.

(** A computation only appends to the trace, and what it returns and
    appends satisfies [Q]. *)
Definition traces {A} (m : M A) (Q : result A -> list event -> Prop) : Prop :=
  forall w, exists evs, trace (snd (m w)) = trace w ++ evs /\ Q (fst (m w)) evs.

(** A computation leaves the observation [f] of the world as it was. *)
Definition keeps {X A} (f : world -> X) (m : M A) : Prop :=
  forall w, f (snd (m w)) = f w.

(** The persisted tables. *)
Definition db (w : world) : list User * list Video := (users w, videos w).

(** An observation that does not look at files, directories or the trace. *)
Record io_blind {X} (f : world -> X) : Prop := {
  blind_files : forall g w, f (with_files g w) = f w;
  blind_dirs : forall g w, f (with_dirs g w) = f w;
  blind_trace : forall g w, f (with_trace g w) = f w
}.





(** [s] has the character [c] in it. *)
Fixpoint has_char (c : ascii) (s : string) : bool :=
  match s with
  | EmptyString => false
  | String d s' => Ascii.eqb d c || has_char c s'
  end.

(** [s] has a path separator in it. *)
Definition has_sep (s : string) : bool := has_char OsPath.sep s.

(** [path] names the entry [name] of directory [dir]. *)
Definition entry_of (dir name path : string) : Prop :=
  name <> EmptyString /\ has_sep name = false /\
  (path = dir +:+ "/" +:+ name \/
   path = dir +:+ name /\ (dir = EmptyString \/ Py.endswith_char OsPath.sep dir = true)).





(** The UUID value drawn by an invocation that starts in world [w]. *)
Definition drawn_uuid (svc : services) (w : world) : N :=
  Uuid.of_bytes_v4 (urandom16 svc (urandom_reads w) mod 2 ^ 128).

(** The job identifier drawn by an invocation that starts in world [w]. *)
Definition drawn_job_id (svc : services) (w : world) : string :=
  Uuid.to_str (drawn_uuid svc w).

(** What [process_video_pipeline] does once the job identifier is drawn. *)
Definition pipeline_body (svc : services) (job_id text template voice_type : string)
    (out_dir : string) (duration : Z) (elevenlabs_api_key : option string)
    : M ai_pipeline.pipeline_result :=
  let job_dir := OsPath.join out_dir job_id in
  makedirs job_dir ;;;
  enhanced_text <- ai_pipeline.enhance_text svc text "gpt2" ;;
  let prompts := ai_pipeline.extract_prompts template enhanced_text in
  image_paths <- ai_pipeline.generate_images svc prompts job_dir
                   "stabilityai/stable-diffusion-xl-base-1.0" ;;
  let audio_path := OsPath.join job_dir "audio.mp3" in
  ai_pipeline.generate_audio svc enhanced_text voice_type audio_path elevenlabs_api_key ;;;
  let video_path := OsPath.join job_dir "video.mp4" in
  ai_pipeline.assemble_video svc image_paths audio_path video_path duration ;;;
  ret {| ai_pipeline.job_id := job_id; ai_pipeline.video_path := video_path;
         ai_pipeline.image_paths := image_paths; ai_pipeline.audio_path := audio_path;
         ai_pipeline.prompts := prompts; ai_pipeline.enhanced_text := enhanced_text |}.

(** The outside calls of the audio and assembly stages of a complete run. *)
Definition audio_events (req : request) (audio_path : string) : list event :=
  [EvHttpPost req; EvFileWrite audio_path].

Definition assembly_events (first audio_path out_path : string) (img_duration : Z) : list event :=
  [EvRun (frames_cmd first out_path img_duration);
   EvRun (mux_cmd audio_path out_path);
   EvRemove (Py.replace ".mp4" "_tmp.mp4" out_path)].

(** The operations of the program that are given the database or serve a
    request: the four endpoints of [main.py] and the functions of
    [crud.py]. *)
Inductive operation :=
| OpCreateUser (user : schemas.UserCreate)
| OpReadUserVideos (user_id skip limit : Z)
| OpGenerateVideo (req : main.GenerateVideoRequest)
| OpGetVideoStatus (video_id : string)
| OpCrudGetUserByEmail (email : string)
| OpCrudCreateUser (user : schemas.UserCreate)
| OpCrudGetVideosByUser (user_id skip limit : Z)
| OpCrudCreateUserVideo (video : schemas.VideoCreate) (user_id : Z).

(** The world after an operation. *)
Definition perform (svc : services) (op : operation) (w : world) : world :=
  match op with
  | OpCreateUser user => snd (main.create_user user w)
  | OpReadUserVideos user_id skip limit => snd (main.read_user_videos user_id skip limit w)
  | OpGenerateVideo req => snd (main.generate_video svc req w)
  | OpGetVideoStatus video_id => snd (main.get_video_status video_id w)
  | OpCrudGetUserByEmail email => snd (crud.get_user_by_email email w)
  | OpCrudCreateUser user => snd (crud.create_user user w)
  | OpCrudGetVideosByUser user_id skip limit =>
      snd (crud.get_videos_by_user user_id skip limit w)
  | OpCrudCreateUserVideo video user_id => snd (crud.create_user_video video user_id w)
  end.

(** A user with this email is persisted. *)
Definition email_known (email : string) (w : world) : Prop :=
  exists u, u ∈ users w /\ user_email u = email.


(** The tables respect the declarations of [models.py]: emails are unique
    and primary keys are unique. *)
Definition db_wf (w : world) : Prop :=
  NoDup (map user_email (users w)) /\
  NoDup (map user_id_ (users w)) /\
  NoDup (map video_id_ (videos w)).

(** A change of the persisted tables. *)
Definition db_update (fu : list User -> list User) (fv : list Video -> list Video)
    (w : world) : world :=
  with_users fu (with_videos fv w).

(** A computation does not look at what [g] changes: run after [g], it
    returns the same and leaves the world [g] would make of its own. *)
Definition commutes {A} (g : world -> world) (m : M A) : Prop :=
  forall w, m (g w) = (fst (m w), g (snd (m w))).

(** The files after the images of [prompts] are saved, the first at
    position [i]. *)
Fixpoint image_files (svc : services) (model_id out_dir : string) (i : nat)
    (prompts : list string) (fs : gmap string (list Byte.byte)) : gmap string (list Byte.byte) :=
  match prompts with
  | [] => fs
  | prompt :: prompts' =>
      image_files svc model_id out_dir (S i) prompts'
        (<[OsPath.join out_dir (img_name i) := diffusion svc model_id prompt]> fs)
  end.

(** [old in s]: [old] occurs in [s]. *)
Fixpoint contains (old s : string) : bool :=
  String.prefix old s ||
  match s with
  | EmptyString => false
  | String _ s' => contains old s'
  end.

(** The intermediate file of [assemble_video]. *)
Definition tmp_of (out_path : string) : string := Py.replace ".mp4" "_tmp.mp4" out_path.

(** The world of an invocation once its images are saved: after the job
    directory is made, the text enhanced and the images generated. *)
Definition after_images (svc : services) (job_dir text template : string) (w : world) : world :=
  snd (ai_pipeline.generate_images svc
         (ai_pipeline.extract_prompts template (text_generation svc "gpt2" text))
         job_dir "stabilityai/stable-diffusion-xl-base-1.0"
         (snd (ai_pipeline.enhance_text svc text "gpt2" (snd (makedirs job_dir w))))).

Definition is_post (e : event) : bool :=
  match e with EvHttpPost _ => true | _ => false end.

(** * Properties *)

(** ** The model on small inputs *)

Example split_example : Py.split "." "a. b .. c." = ["a"; " b "; ""; " c"; ""].
Proof. reflexivity. Qed.

Example strip_example : Py.strip "  a b  " = "a b".
Proof. reflexivity. Qed.

Example replace_example :
  Py.replace ".mp4" "_tmp.mp4" "x.mp4/j/video.mp4" = "x_tmp.mp4/j/video_tmp.mp4".
Proof. reflexivity. Qed.

Example dirname_example : OsPath.dirname "static/videos/j/img_1.png" = "static/videos/j".
Proof. reflexivity. Qed.

Example join_example :
  OsPath.join "static" "videos" = "static/videos" /\
  OsPath.join "static/" "videos" = "static/videos" /\
  OsPath.join "static" "/videos" = "/videos".
Proof. repeat split; reflexivity. Qed.

Example str_of_int_example :
  Py.str_of_int 201 = "201" /\ Py.str_of_int 0 = "0" /\ Py.str_of_int (-5) = "-5".
Proof. repeat split; reflexivity. Qed.

Example uuid_example :
  Uuid.to_str (Uuid.of_bytes_v4 0x0123456789abcdef0123456789abcdef)
  = "01234567-89ab-4def-8123-456789abcdef".
Proof. vm_compute. reflexivity. Qed.

Example extract_prompts_example :
  ai_pipeline.extract_prompts "modern" "Plants make food. They use light.  . Water too. And air."
  = ["modern educational image: Plants make food";
     "modern educational image: They use light";
     "modern educational image: Water too"].
Proof. reflexivity. Qed.

Example generate_video_example :
  fst (main.generate_video (Sample.svc 200) Sample.req Sample.w0)
  = Ok {| ai_pipeline.job_id := "01234567-89ab-4def-8123-456789abcdef";
          ai_pipeline.video_path :=
            "static/videos/01234567-89ab-4def-8123-456789abcdef/video.mp4";
          ai_pipeline.image_paths :=
            ["static/videos/01234567-89ab-4def-8123-456789abcdef/img_1.png";
             "static/videos/01234567-89ab-4def-8123-456789abcdef/img_2.png";
             "static/videos/01234567-89ab-4def-8123-456789abcdef/img_3.png"];
          ai_pipeline.audio_path :=
            "static/videos/01234567-89ab-4def-8123-456789abcdef/audio.mp3";
          ai_pipeline.prompts :=
            ["modern educational image: Hello Plants make food";
             "modern educational image: They use light";
             "modern educational image: Water too"];
          ai_pipeline.enhanced_text :=
            "Hello Plants make food. They use light.  . Water too. And air." |}.
Proof. vm_compute. reflexivity. Qed.

(** An enhanced text without any segment leaves no prompt and no image, and
    the assembly stops at its first image. *)
Example generate_video_no_segment :
  let svc := {| text_generation := fun _ _ => " . . ";
                diffusion := diffusion (Sample.svc 200);
                http_post := http_post (Sample.svc 200);
                tool_exit := tool_exit (Sample.svc 200);
                tool_output := tool_output (Sample.svc 200);
                urandom16 := urandom16 (Sample.svc 200) |} in
  fst (main.generate_video svc Sample.req Sample.w0) = Raise IndexError.
Proof. vm_compute. reflexivity. Qed.

(** ** Audio synthesis *)

Section Audio.

Variable svc : services.

Lemma truthy_false_iff (s : string) : Py.truthy s = false <-> s = EmptyString.
Proof. destruct s; simpl; split; congruence. Qed.

Lemma generate_audio_key (text voice out_path : string) (api_key : option string) (w : world) :
  ai_pipeline.generate_audio svc text voice out_path api_key w =
  let key := effective_key api_key w in
  if negb (Py.truthy key)
  then (Raise (RuntimeError "ElevenLabs API key not set. Set ELEVENLABS_API_KEY as env variable or pass as argument."), w)
  else
    let req := tts_request text voice key in
    let resp := http_post svc req in
    let w1 := with_trace (fun t => t ++ [EvHttpPost req]) w in
    if negb (status_code resp =? 200)
    then (Raise (RuntimeError ("TTS API error: " +:+ Py.str_of_int (status_code resp)
                               +:+ " " +:+ resp_text resp)), w1)
    else (Ok out_path,
          with_files (fun fs => <[out_path := content resp]> fs)
            (with_trace (fun t => t ++ [EvFileWrite out_path]) w1)).
Proof.
  unfold ai_pipeline.generate_audio, effective_key.
  destruct api_key as [k|]; unfold bind, getenv, ret; simpl.
  - destruct (Py.truthy k); simpl; [|reflexivity].
    unfold ai_pipeline.requests_post, bind, emit, ret, raise; simpl.
    destruct (status_code _ =? 200); reflexivity.
  - destruct (Py.truthy (default EmptyString (environ w !! "ELEVENLABS_API_KEY"))); simpl; [|reflexivity].
    unfold ai_pipeline.requests_post, bind, emit, ret, raise; simpl.
    destruct (status_code _ =? 200); reflexivity.
Qed.

End Audio.




(** ** Video assembly *)

Section Assembly.

Variable svc : services.

Lemma assemble_video_unfold (image_paths : list string) (audio_path out_path : string)
    (duration : Z) (w : world) :
  ai_pipeline.assemble_video svc image_paths audio_path out_path duration w =
  match image_paths with
  | [] => (Raise IndexError, w)
  | first :: _ =>
      let img_duration := duration / Z.of_nat (length image_paths) in
      if img_duration =? 0 then (Raise ZeroDivisionError, w)
      else run_tools svc first audio_path out_path img_duration w
  end.
Proof.
  unfold ai_pipeline.assemble_video.
  destruct image_paths as [|first rest]; [reflexivity|].
  unfold bind at 1. cbn [ai_pipeline.first_item ret].
  unfold bind at 1. unfold ai_pipeline.floordiv.
  destruct (Z.eqb_spec (Z.of_nat (length (first :: rest))) 0) as [E|_].
  { simpl in E. lia. }
  cbn [ret]. cbv zeta.
  unfold bind at 1. unfold ai_pipeline.str_recip.
  destruct (_ =? 0); reflexivity.
Qed.

Lemma run_tools_trace (first audio_path out_path : string) (d : Z) (w : world) :
  exists evs,
    trace (snd (run_tools svc first audio_path out_path d w))
      = trace w ++ EvRun (frames_cmd first out_path d) :: evs /\
    fst (run_tools svc first audio_path out_path d w) <> Raise ZeroDivisionError /\
    fst (run_tools svc first audio_path out_path d w) <> Raise IndexError.
Proof.
  unfold run_tools, ai_pipeline.subprocess_run, remove, bind, emit, ret; simpl.
  repeat (case_match; simpl in * ); simplify_eq; simpl;
    rewrite <- ?app_assoc; simpl; eexists; (split; [reflexivity | split; discriminate]).
Qed.

End Assembly.

(** C3 (as amended).  With an empty image list [assemble_video] fails, and
    the failing operation is the lookup of the first image path
    ([image_paths[0]], an index error); the duration division is not
    reached and no outside call is made. *)
Theorem assemble_video_empty_index_error :
  forall (svc : services) (audio_path out_path : string) (duration : Z) (w : world),
    ai_pipeline.assemble_video svc [] audio_path out_path duration w
      = (Raise IndexError, w).
Proof. intros. apply assemble_video_unfold. Qed.

(** C3 as stated fails: on the empty list the error is the index error, not
    the division error. *)
Lemma assemble_video_empty_not_division :
  fst (ai_pipeline.assemble_video (Sample.svc 200) [] "a.mp3" "o.mp4" 60 Sample.w0)
    = Raise IndexError /\
  fst (ai_pipeline.assemble_video (Sample.svc 200) [] "a.mp3" "o.mp4" 60 Sample.w0)
    <> Raise ZeroDivisionError.
Proof. split; [reflexivity | discriminate]. Qed.

(** C4 (as amended).  For a non-empty image list and a non-negative
    duration: when the image count exceeds the duration, the per-image
    duration is zero and [assemble_video] stops with a division error at
    [1/img_duration], before any outside call; when the count is at most the
    duration, the per-image duration is not zero, there is no division
    error and the external tool is called.  So, for non-negative durations,
    the tool is reached without a division error exactly when the count is
    at most the duration. *)
Theorem assemble_video_division_error_iff :
  forall (svc : services) (image_paths : list string) (audio_path out_path : string)
         (duration : Z) (w : world),
    image_paths <> [] -> 0 <= duration ->
    let img_count := Z.of_nat (length image_paths) in
    let r := fst (ai_pipeline.assemble_video svc image_paths audio_path out_path duration w) in
    let w' := snd (ai_pipeline.assemble_video svc image_paths audio_path out_path duration w) in
    (duration < img_count ->
       duration / img_count = 0 /\ r = Raise ZeroDivisionError /\ w' = w) /\
    (img_count <= duration ->
       duration / img_count <> 0 /\ r <> Raise ZeroDivisionError /\
       exists first evs,
         head image_paths = Some first /\
         trace w' = trace w ++
           EvRun (frames_cmd first out_path (duration / img_count)) :: evs) /\
    (r = Raise ZeroDivisionError <-> duration < img_count).
Proof.
  intros svc image_paths audio_path out_path duration w Hne Hd img_count r w'.
  subst r w'. rewrite assemble_video_unfold.
  destruct image_paths as [|first rest]; [congruence|].
  fold img_count. cbv zeta.
  assert (Hc : 0 < img_count) by (subst img_count; simpl; lia).
  destruct (Z.eqb_spec (duration / img_count) 0) as [E|E].
  - assert (Hlt : duration < img_count).
    { apply Z.div_small_iff in E; lia. }
    split; [|split].
    + intros _. repeat split; assumption.
    + intros Hle. lia.
    + simpl. split; intros _; [assumption | reflexivity].
  - assert (Hle : img_count <= duration).
    { destruct (Z_lt_le_dec duration img_count) as [Hlt|Hle]; [|assumption].
      exfalso. apply E. apply Z.div_small. lia. }
    destruct (run_tools_trace svc first audio_path out_path (duration / img_count) w)
      as (evs & Ht & Hz & _).
    split; [|split].
    + intros Hlt. lia.
    + intros _. split; [assumption|]. split; [assumption|].
      exists first, evs. split; [reflexivity | assumption].
    + split; [intros Hr; contradiction | intros Hlt; lia].
Qed.

(** A run of C4's theorem: seven images and a duration of 3. *)
Lemma assemble_video_division_error_iff_witness :
  fst (ai_pipeline.assemble_video (Sample.svc 200) Sample.seven_images "a.mp3" "o.mp4" 3 Sample.w0)
    = Raise ZeroDivisionError.
Proof.
  refine (proj1 (proj2 (proj1
    (assemble_video_division_error_iff (Sample.svc 200) Sample.seven_images
       "a.mp3" "o.mp4" 3 Sample.w0 _ _) _))).
  - discriminate.
  - lia.
  - simpl. lia.
Defined.

(** C4 as stated fails for a negative duration: one image is more than a
    duration of -1, yet the floor quotient is -1, not zero; there is no
    division error and [assemble_video] goes on to call the tool. *)
Lemma assemble_video_negative_duration :
  Z.of_nat (length ["d/img_1.png"]) > -1 /\
  (-1) / Z.of_nat (length ["d/img_1.png"]) = -1 /\
  fst (ai_pipeline.assemble_video (Sample.svc 200) ["d/img_1.png"] "a.mp3" "o.mp4" (-1) Sample.w0)
    <> Raise ZeroDivisionError /\
  head (trace (snd (ai_pipeline.assemble_video (Sample.svc 200) ["d/img_1.png"]
                      "a.mp3" "o.mp4" (-1) Sample.w0)))
    = Some (EvRun (frames_cmd "d/img_1.png" "o.mp4" (-1))).
Proof.
  split; [simpl; lia|]. split; [reflexivity|].
  split; [vm_compute; discriminate | vm_compute; reflexivity].
Qed.




(** ** Reasoning about computations *)

Section Computations.

Context {A B : Type}.

Lemma bind_ok (m : M A) (k : A -> M B) (w : world) (a : A) :
  fst (m w) = Ok a -> bind m k w = k a (snd (m w)).
Proof. unfold bind. destruct (m w) as [[a'|e] w']; simpl; congruence. Qed.

Lemma bind_raise (m : M A) (k : A -> M B) (w : world) (e : exn) :
  fst (m w) = Raise e -> bind m k w = (Raise e, snd (m w)).
Proof. unfold bind. destruct (m w) as [[a'|e'] w']; simpl; congruence. Qed.

Lemma keeps_bind {X} (f : world -> X) (m : M A) (k : A -> M B) :
  keeps f m -> (forall a, keeps f (k a)) -> keeps f (bind m k).
Proof.
  intros Hm Hk w. unfold bind. specialize (Hm w).
  destruct (m w) as [[a|e] w']; simpl in *; [|assumption].
  now rewrite Hk.
Qed.

End Computations.

Lemma keeps_ret {X A} (f : world -> X) (a : A) : keeps f (ret a).
Proof. intros w. reflexivity. Qed.

Lemma keeps_raise {X A} (f : world -> X) (e : exn) : keeps f (@raise A e).
Proof. intros w. reflexivity. Qed.

(** ** Image generation *)

Section ImageGeneration.

Variable svc : services.

Lemma generate_images_loop_run (model_id out_dir : string) (prompts : list string) :
  forall (i : nat) (acc : list string) (w : world),
    fst (ai_pipeline.generate_images_loop svc model_id out_dir i prompts acc w)
      = Ok (acc ++ image_paths_from out_dir i prompts) /\
    trace (snd (ai_pipeline.generate_images_loop svc model_id out_dir i prompts acc w))
      = trace w ++ image_events model_id out_dir i prompts.
Proof.
  induction prompts as [|prompt prompts IH]; intros i acc w.
  - simpl. now rewrite !app_nil_r.
  - cbn [ai_pipeline.generate_images_loop image_paths_from image_events].
    unfold bind at 1. cbn [ai_pipeline.run_pipe bind emit ret fst snd].
    unfold bind at 1. cbn [ai_pipeline.image_save bind emit ret fst snd].
    fold (img_name i).
    match goal with
    | |- context [ai_pipeline.generate_images_loop _ _ _ _ _ ?acc' ?w'] =>
        destruct (IH (S i) acc' w') as [Hr Ht]
    end.
    rewrite Hr, Ht. split.
    + now rewrite <- app_assoc.
    + simpl. now rewrite <- !app_assoc.
Qed.

Lemma generate_images_run (prompts : list string) (out_dir model_id : string) (w : world) :
  fst (ai_pipeline.generate_images svc prompts out_dir model_id w)
    = Ok (image_paths_from out_dir 0 prompts) /\
  trace (snd (ai_pipeline.generate_images svc prompts out_dir model_id w))
    = trace w ++ EvMakedirs out_dir :: image_events model_id out_dir 0 prompts.
Proof.
  unfold ai_pipeline.generate_images.
  unfold bind at 1. cbn [makedirs bind emit fst snd].
  match goal with
  | |- context [ai_pipeline.generate_images_loop _ _ _ _ _ ?acc' ?w'] =>
      destruct (generate_images_loop_run model_id out_dir prompts 0 acc' w') as [Hr Ht]
  end.
  rewrite Hr, Ht. split; [reflexivity|].
  simpl. now rewrite <- app_assoc.
Qed.

Lemma image_paths_from_length (out_dir : string) (prompts : list string) :
  forall i, length (image_paths_from out_dir i prompts) = length prompts.
Proof. induction prompts; intros i; simpl; [reflexivity | now rewrite IHprompts]. Qed.

Lemma image_paths_from_lookup (out_dir : string) (prompts : list string) :
  forall i k, (k < length prompts)%nat ->
    image_paths_from out_dir i prompts !! k = Some (OsPath.join out_dir (img_name (i + k))).
Proof.
  induction prompts as [|p prompts IH]; intros i k Hk; simpl in *; [lia|].
  destruct k as [|k]; simpl.
  - now rewrite Nat.add_0_r.
  - rewrite IH by lia. do 3 f_equal. lia.
Qed.

Lemma image_events_generations (model_id out_dir : string) (prompts : list string) :
  forall i, omap generation_prompt (image_events model_id out_dir i prompts) = prompts.
Proof. induction prompts; intros i; simpl; [reflexivity | now rewrite IHprompts]. Qed.

Lemma image_events_saves (model_id out_dir : string) (prompts : list string) :
  forall i, omap saved_path (image_events model_id out_dir i prompts)
            = image_paths_from out_dir i prompts.
Proof. induction prompts; intros i; simpl; [reflexivity | now rewrite IHprompts]. Qed.

End ImageGeneration.

(** ** Strings and paths *)

Section Strings.

Lemma app_cons (c : ascii) (s t : string) : String c s +:+ t = String c (s +:+ t).
Proof. reflexivity. Qed.

Lemma app_empty_l (t : string) : EmptyString +:+ t = t.
Proof. reflexivity. Qed.

Lemma app_assoc_str (s t u : string) : (s +:+ t) +:+ u = s +:+ t +:+ u.
Proof. induction s as [|c s IH]; [reflexivity | now rewrite !app_cons, IH]. Qed.

Lemma length_app_str (s t : string) :
  String.length (s +:+ t) = (String.length s + String.length t)%nat.
Proof. induction s as [|c s IH]; [reflexivity | rewrite app_cons; simpl; now rewrite IH]. Qed.

Lemma app_inj_r (t : string) : forall s1 s2, s1 +:+ t = s2 +:+ t -> s1 = s2.
Proof.
  induction s1 as [|c s1 IH]; intros [|d s2] H.
  - reflexivity.
  - apply (f_equal String.length) in H.
    rewrite app_empty_l, app_cons in H. simpl in H. rewrite length_app_str in H. lia.
  - apply (f_equal String.length) in H.
    rewrite app_empty_l, app_cons in H. simpl in H. rewrite length_app_str in H. lia.
  - rewrite !app_cons in H. injection H as -> H. f_equal. now apply IH.
Qed.

Lemma str_of_int_inj (a b : Z) : Py.str_of_int a = Py.str_of_int b -> a = b.
Proof.
  unfold Py.str_of_int. intros H.
  assert (Hn : forall z, Z.to_int z <> Decimal.Pos Decimal.Nil /\
                         Z.to_int z <> Decimal.Neg Decimal.Nil).
  { intros [|p|p]; simpl; split; try discriminate;
      intros E; injection E; apply DecimalPos.Unsigned.to_uint_nonnil. }
  apply (f_equal NilZero.int_of_string) in H.
  rewrite !NilZero.isi in H by apply Hn.
  injection H as H. apply (f_equal Z.of_int) in H.
  now rewrite !DecimalZ.of_to in H.
Qed.

Lemma img_name_inj (i j : nat) : img_name i = img_name j -> i = j.
Proof.
  unfold img_name. intros H.
  apply String.app_inj in H. apply app_inj_r in H.
  apply str_of_int_inj in H. lia.
Qed.

Lemma img_name_relative (i : nat) : Py.startswith "/" (img_name i) = false.
Proof. reflexivity. Qed.

Lemma join_inj (a b1 b2 : string) :
  Py.startswith "/" b1 = false -> Py.startswith "/" b2 = false ->
  OsPath.join a b1 = OsPath.join a b2 -> b1 = b2.
Proof.
  intros H1 H2. unfold OsPath.join. rewrite H1, H2.
  destruct (negb (Py.truthy a) || Py.endswith_char OsPath.sep a); intros H.
  - now apply String.app_inj in H.
  - apply String.app_inj in H. now apply String.app_inj in H.
Qed.

Lemma image_paths_from_NoDup (out_dir : string) (prompts : list string) :
  forall i, NoDup (image_paths_from out_dir i prompts).
Proof.
  induction prompts as [|p prompts IH]; intros i; simpl; constructor; [|apply IH].
  intros Hin. apply list_elem_of_lookup in Hin as [k Hk].
  assert (Hlt : (k < length prompts)%nat).
  { apply lookup_lt_Some in Hk. now rewrite image_paths_from_length in Hk. }
  rewrite image_paths_from_lookup in Hk by assumption.
  injection Hk as Hk. apply join_inj in Hk; try apply img_name_relative.
  apply img_name_inj in Hk. lia.
Qed.

End Strings.


(** ** Stage by stage: what is appended to the trace *)

Section StageTraces.

Variable svc : services.

Lemma enhance_text_traces (input_text model_name : string) :
  traces (ai_pipeline.enhance_text svc input_text model_name)
    (fun r evs => r = Ok (text_generation svc model_name input_text) /\
                  evs = [EvTextGeneration model_name input_text]).
Proof. intros w. eexists. split; [reflexivity|]. split; reflexivity. Qed.

Lemma makedirs_traces (path : string) :
  traces (makedirs path) (fun r evs => r = Ok tt /\ evs = [EvMakedirs path]).
Proof. intros w. eexists. split; [reflexivity|]. split; reflexivity. Qed.

Lemma generate_images_traces (prompts : list string) (out_dir model_id : string) :
  traces (ai_pipeline.generate_images svc prompts out_dir model_id)
    (fun r evs => r = Ok (image_paths_from out_dir 0 prompts) /\
                  evs = EvMakedirs out_dir :: image_events model_id out_dir 0 prompts).
Proof.
  intros w. destruct (generate_images_run svc prompts out_dir model_id w) as [Hr Ht].
  eexists. split; [exact Ht|]. split; [exact Hr | reflexivity].
Qed.

Lemma generate_audio_traces (text voice out_path : string) (api_key : option string) :
  traces (ai_pipeline.generate_audio svc text voice out_path api_key)
    (fun r evs => exists req,
       evs `prefix_of` audio_events req out_path /\
       (forall a, r = Ok a -> a = out_path /\ evs = audio_events req out_path)).
Proof.
  intros w. rewrite generate_audio_key. cbv zeta.
  set (req := tts_request text voice (effective_key api_key w)).
  destruct (Py.truthy _); simpl.
  - destruct (status_code _ =? 200); simpl.
    + exists (audio_events req out_path). split; [now rewrite <- app_assoc|].
      exists req. split; [reflexivity|]. intros a [= <-]. auto.
    + exists [EvHttpPost req]. split; [reflexivity|].
      exists req. split; [now exists [EvFileWrite out_path] | discriminate].
  - exists []. split; [now rewrite app_nil_r|].
    exists req. split; [apply prefix_nil | discriminate].
Qed.

Lemma run_tools_traces (first audio_path out_path : string) (d : Z) :
  traces (run_tools svc first audio_path out_path d)
    (fun r evs =>
       evs `prefix_of` assembly_events first audio_path out_path d /\
       (forall a, r = Ok a -> a = out_path /\
                              evs = assembly_events first audio_path out_path d)).
Proof.
  intros w.
  unfold run_tools, ai_pipeline.subprocess_run, remove, bind, emit, ret; simpl.
  unfold assembly_events.
  repeat (case_match; simpl in * ); simplify_eq; simpl;
    rewrite <- ?app_assoc; simpl; eexists;
    (split; [reflexivity |
             split; [ first [ reflexivity | eexists; reflexivity ]
                    | first [ discriminate | intros a [= <-]; auto ] ] ]).
Qed.

Lemma assemble_video_traces (image_paths : list string) (audio_path out_path : string)
    (duration : Z) :
  traces (ai_pipeline.assemble_video svc image_paths audio_path out_path duration)
    (fun r evs => exists first d,
       evs `prefix_of` assembly_events first audio_path out_path d /\
       (forall a, r = Ok a ->
          a = out_path /\ head image_paths = Some first /\
          evs = assembly_events first audio_path out_path d)).
Proof.
  intros w. rewrite assemble_video_unfold.
  destruct image_paths as [|first rest].
  - exists []. split; [now rewrite app_nil_r|].
    exists EmptyString, 0. split; [apply prefix_nil | discriminate].
  - cbv zeta. destruct (_ =? 0).
    + exists []. split; [now rewrite app_nil_r|].
      exists first, 0. split; [apply prefix_nil | discriminate].
    + destruct (run_tools_traces first audio_path out_path
                  (duration / Z.of_nat (length (first :: rest))) w)
        as (evs & Ht & Hp & Hok).
      exists evs. split; [exact Ht|].
      exists first, (duration / Z.of_nat (length (first :: rest))).
      split; [exact Hp|]. intros a Ha. destruct (Hok a Ha) as [-> ->]. auto.
Qed.

End StageTraces.

(** ** Characters of names and identifiers *)

Section Characters.

Lemma has_char_app (c : ascii) (s t : string) :
  has_char c (s +:+ t) = has_char c s || has_char c t.
Proof.
  induction s as [|d s IH]; [reflexivity|].
  rewrite app_cons. simpl. rewrite IH. now rewrite orb_assoc.
Qed.

Lemma hex_digit_not (c : ascii) (d : N) :
  has_char c "0123456789abcdef" = false -> Ascii.eqb (Uuid.hex_digit d) c = false.
Proof.
  intros H. simpl in H. repeat (apply orb_false_elim in H as [? H]).
  destruct d as [|p]; [assumption|].
  do 4 (try destruct p as [p|p|]); simpl; assumption.
Qed.

(** [str] of a UUID is made of hexadecimal digits and dashes. *)
Lemma to_str_has_char (c : ascii) (u : N) :
  has_char c "0123456789abcdef-" = false -> has_char c (Uuid.to_str u) = false.
Proof.
  intros H.
  assert (Hd : Ascii.eqb "-" c = false).
  { simpl in H. repeat (apply orb_false_elim in H as [? H]). assumption. }
  assert (Hh : has_char c "0123456789abcdef" = false).
  { simpl in *. repeat (apply orb_false_elim in H as [? H]).
    repeat (apply orb_false_intro; [assumption|]). reflexivity. }
  unfold Uuid.to_str.
  cbv -[N.div N.modulo Uuid.hex_digit Ascii.eqb orb].
  rewrite !(hex_digit_not c _ Hh), Hd. reflexivity.
Qed.

Lemma to_str_length (u : N) : String.length (Uuid.to_str u) = 36%nat.
Proof.
  unfold Uuid.to_str. cbv -[N.div N.modulo Uuid.hex_digit]. reflexivity.
Qed.

Lemma to_str_nonempty (u : N) : Uuid.to_str u <> EmptyString.
Proof. intros E. pose proof (to_str_length u) as H. rewrite E in H. discriminate. Qed.








Lemma uint_has_char (c : ascii) (d : Decimal.uint) :
  has_char c "0123456789" = false -> has_char c (NilEmpty.string_of_uint d) = false.
Proof.
  intros H. simpl in H. repeat (apply orb_false_elim in H as [? H]).
  induction d; simpl; rewrite ?IHd; rewrite ?orb_false_r; try assumption; reflexivity.
Qed.

(** [str] of an integer is made of decimal digits and a minus sign. *)
Lemma str_of_int_has_char (c : ascii) (z : Z) :
  has_char c "0123456789-" = false -> has_char c (Py.str_of_int z) = false.
Proof.
  intros H.
  assert (Hd : Ascii.eqb "-" c = false).
  { simpl in H. repeat (apply orb_false_elim in H as [? H]). assumption. }
  assert (Hh : has_char c "0123456789" = false).
  { simpl in *. repeat (apply orb_false_elim in H as [? H]).
    repeat (apply orb_false_intro; [assumption|]). reflexivity. }
  assert (Hu : forall d, has_char c (NilZero.string_of_uint d) = false).
  { intros d. destruct d; try apply (uint_has_char c _ Hh).
    simpl. simpl in Hh. now apply orb_false_elim in Hh as [-> _]. }
  unfold Py.str_of_int.
  destruct (Z.to_int z); cbn [NilZero.string_of_int has_char]; [apply Hu|].
  now rewrite Hd, Hu.
Qed.

Lemma img_name_no_sep (i : nat) : has_sep (img_name i) = false.
Proof.
  unfold has_sep, img_name. rewrite !has_char_app.
  rewrite str_of_int_has_char by reflexivity. reflexivity.
Qed.


Lemma no_sep_relative (s : string) : has_sep s = false -> Py.startswith "/" s = false.
Proof.
  destruct s as [|d s]; [reflexivity|]. unfold has_sep. cbn [has_char].
  intros H. apply orb_false_elim in H as [H _].
  unfold Py.startswith. cbn [String.prefix].
  destruct (ascii_dec "/" d) as [<-|]; [vm_compute in H; discriminate | reflexivity].
Qed.

Lemma endswith_char_no (c : ascii) (s : string) :
  has_char c s = false -> Py.endswith_char c s = false.
Proof.
  induction s as [|d s IH]; [reflexivity|]. simpl.
  intros H. apply orb_false_elim in H as [Hd Hs].
  destruct s; [assumption | now apply IH].
Qed.

Lemma endswith_char_app (c : ascii) (s t : string) :
  t <> EmptyString -> Py.endswith_char c (s +:+ t) = Py.endswith_char c t.
Proof.
  intros Ht. induction s as [|d s IH]; [reflexivity|].
  rewrite app_cons. simpl. rewrite IH.
  destruct (s +:+ t) eqn:E; [|reflexivity].
  destruct s; [rewrite app_empty_l in E; contradiction | discriminate].
Qed.

Lemma truthy_app_r (s t : string) : t <> EmptyString -> Py.truthy (s +:+ t) = true.
Proof. destruct s; [destruct t; [contradiction | reflexivity] | reflexivity]. Qed.

(** A non-empty name without separator, joined to a directory, is an
    entry of that directory. *)
Lemma join_entry (dir name : string) :
  name <> EmptyString -> has_sep name = false ->
  entry_of dir name (OsPath.join dir name).
Proof.
  intros Hn Hs. split; [assumption|]. split; [assumption|].
  unfold OsPath.join. rewrite (no_sep_relative _ Hs).
  destruct (Py.truthy dir) eqn:Hd; simpl.
  - destruct (Py.endswith_char OsPath.sep dir) eqn:He; auto.
  - apply truthy_false_iff in Hd. auto.
Qed.

(** The entry keeps the last character of its name: it is not empty and
    does not end with a separator. *)
Lemma entry_shape (dir name path : string) :
  entry_of dir name path ->
  Py.truthy path = true /\ Py.endswith_char OsPath.sep path = false.
Proof.
  intros (Hn & Hs & H).
  assert (He : Py.endswith_char OsPath.sep name = false) by now apply endswith_char_no.
  destruct H as [-> | [-> _]].
  - rewrite <- app_assoc_str. now rewrite truthy_app_r, endswith_char_app.
  - now rewrite truthy_app_r, endswith_char_app.
Qed.


Lemma replace_mp4_skip (new s t : string) :
  has_char "." s = false ->
  Py.replace ".mp4" new (s +:+ t) = s +:+ Py.replace ".mp4" new t.
Proof.
  unfold Py.replace. induction s as [|c s IH]; [reflexivity|].
  cbn [has_char]. intros H. apply orb_false_elim in H as [Hc Hs].
  rewrite !app_cons. cbn [Py.replace_from String.prefix].
  destruct (ascii_dec "." c) as [<-|_]; [vm_compute in Hc; discriminate|].
  now rewrite IH.
Qed.

End Characters.

(** ** What the stages leave alone *)

Section Frames.

Variable svc : services.
Context {X : Type} (f : world -> X).
Hypothesis f_blind : io_blind f.

Ltac blind :=
  intros ?; simpl; repeat case_match; simpl;
  rewrite ?(blind_files f f_blind), ?(blind_dirs f f_blind), ?(blind_trace f f_blind);
  reflexivity.

Lemma keeps_emit (e : event) : keeps f (emit e).
Proof. blind. Qed.

Lemma keeps_getenv (name : string) : keeps f (getenv name).
Proof. blind. Qed.

Lemma keeps_makedirs (path : string) : keeps f (makedirs path).
Proof. apply keeps_bind; [apply keeps_emit | intros _; blind]. Qed.

Lemma keeps_write_file (path : string) (data : list Byte.byte) : keeps f (write_file path data).
Proof. apply keeps_bind; [apply keeps_emit | intros _; blind]. Qed.

Lemma keeps_remove (path : string) : keeps f (remove path).
Proof. apply keeps_bind; [apply keeps_emit | intros _; blind]. Qed.

Lemma keeps_subprocess_run (cmd : list arg) : keeps f (ai_pipeline.subprocess_run svc cmd).
Proof. apply keeps_bind; [apply keeps_emit | intros _; blind]. Qed.

Lemma keeps_enhance_text (input_text model_name : string) :
  keeps f (ai_pipeline.enhance_text svc input_text model_name).
Proof. apply keeps_bind; [apply keeps_emit | intros _; apply keeps_ret]. Qed.

Lemma keeps_generate_audio (text voice out_path : string) (api_key : option string) :
  keeps f (ai_pipeline.generate_audio svc text voice out_path api_key).
Proof.
  unfold ai_pipeline.generate_audio, ai_pipeline.requests_post.
  apply keeps_bind; [destruct api_key; [apply keeps_ret | apply keeps_getenv]|].
  intros k. cbv zeta. destruct (negb _); [apply keeps_raise|].
  apply keeps_bind; [apply keeps_bind; [apply keeps_emit | intros _; apply keeps_ret]|].
  intros response. destruct (negb _); [apply keeps_raise|].
  apply keeps_bind; [apply keeps_write_file | intros _; apply keeps_ret].
Qed.

Lemma keeps_generate_images_loop (model_id out_dir : string) (prompts : list string) :
  forall i acc, keeps f (ai_pipeline.generate_images_loop svc model_id out_dir i prompts acc).
Proof.
  induction prompts as [|p prompts IH]; intros i acc; simpl; [apply keeps_ret|].
  apply keeps_bind.
  - apply keeps_bind; [apply keeps_emit | intros _; apply keeps_ret].
  - intros image. apply keeps_bind; [|intros _; apply IH].
    apply keeps_bind; [apply keeps_emit | intros _; blind].
Qed.

Lemma keeps_generate_images (prompts : list string) (out_dir model_id : string) :
  keeps f (ai_pipeline.generate_images svc prompts out_dir model_id).
Proof.
  apply keeps_bind; [apply keeps_makedirs | intros _; apply keeps_generate_images_loop].
Qed.

Lemma keeps_assemble_video (image_paths : list string) (audio_path out_path : string)
    (duration : Z) :
  keeps f (ai_pipeline.assemble_video svc image_paths audio_path out_path duration).
Proof.
  unfold ai_pipeline.assemble_video.
  apply keeps_bind; [destruct image_paths; [apply keeps_raise | apply keeps_ret]|].
  intros first. cbv zeta.
  apply keeps_bind; [unfold ai_pipeline.floordiv; destruct (_ =? 0);
                     [apply keeps_raise | apply keeps_ret]|].
  intros d.
  apply keeps_bind; [unfold ai_pipeline.str_recip; destruct (_ =? 0);
                     [apply keeps_raise | apply keeps_ret]|].
  intros framerate.
  apply keeps_bind; [apply keeps_subprocess_run | intros _].
  apply keeps_bind; [apply keeps_subprocess_run | intros _].
  apply keeps_bind; [apply keeps_remove | intros _; apply keeps_ret].
Qed.

Lemma keeps_pipeline_body (job_id text template voice_type out_dir : string)
    (duration : Z) (key : option string) :
  keeps f (pipeline_body svc job_id text template voice_type out_dir duration key).
Proof.
  unfold pipeline_body. cbv zeta.
  apply keeps_bind; [apply keeps_makedirs | intros _].
  apply keeps_bind; [apply keeps_enhance_text | intros enhanced].
  apply keeps_bind; [apply keeps_generate_images | intros paths].
  apply keeps_bind; [apply keeps_generate_audio | intros _].
  apply keeps_bind; [apply keeps_assemble_video | intros _; apply keeps_ret].
Qed.

End Frames.

Lemma db_blind : io_blind db.
Proof. split; reflexivity. Qed.


(** ** The pipeline *)

Section Pipeline.

Variable svc : services.

Lemma pipeline_unfold (text template voice_type user_id out_dir : string)
    (duration : Z) (key : option string) (w : world) :
  ai_pipeline.process_video_pipeline svc text template voice_type user_id out_dir duration key w
  = pipeline_body svc (drawn_job_id svc w) text template voice_type out_dir duration key
      (with_urandom_reads S w).
Proof. reflexivity. Qed.

Lemma pipeline_body_traces (job_id text template voice_type out_dir : string)
    (duration : Z) (key : option string) :
  traces (pipeline_body svc job_id text template voice_type out_dir duration key)
    (fun r evs =>
       let job_dir := OsPath.join out_dir job_id in
       let enhanced_text := text_generation svc "gpt2" text in
       let prompts := ai_pipeline.extract_prompts template enhanced_text in
       let image_paths := image_paths_from job_dir 0 prompts in
       let audio_path := OsPath.join job_dir "audio.mp3" in
       let video_path := OsPath.join job_dir "video.mp4" in
       exists req first d tail,
         evs = [EvMakedirs job_dir; EvTextGeneration "gpt2" text; EvMakedirs job_dir]
               ++ image_events "stabilityai/stable-diffusion-xl-base-1.0" job_dir 0 prompts
               ++ tail /\
         tail `prefix_of` audio_events req audio_path
                          ++ assembly_events first audio_path video_path d /\
         (forall res, r = Ok res ->
            res = {| ai_pipeline.job_id := job_id;
                     ai_pipeline.video_path := video_path;
                     ai_pipeline.image_paths := image_paths;
                     ai_pipeline.audio_path := audio_path;
                     ai_pipeline.prompts := prompts;
                     ai_pipeline.enhanced_text := enhanced_text |} /\
            head image_paths = Some first /\
            tail = audio_events req audio_path
                   ++ assembly_events first audio_path video_path d)).
Proof.
  intros w. unfold pipeline_body. cbv zeta.
  set (job_dir := OsPath.join out_dir job_id).
  set (enhanced_text := text_generation svc "gpt2" text).
  set (prompts := ai_pipeline.extract_prompts template enhanced_text).
  set (audio_path := OsPath.join job_dir "audio.mp3").
  set (video_path := OsPath.join job_dir "video.mp4").
  destruct (makedirs_traces job_dir w) as (e1 & T1 & R1 & ->).
  rewrite (bind_ok _ _ _ _ R1).
  set (w1 := snd (makedirs job_dir w)) in *.
  destruct (enhance_text_traces svc text "gpt2" w1) as (e2 & T2 & R2 & ->).
  rewrite (bind_ok _ _ _ _ R2). fold enhanced_text. fold prompts.
  set (w2 := snd (ai_pipeline.enhance_text svc text "gpt2" w1)) in *.
  destruct (generate_images_traces svc prompts job_dir
              "stabilityai/stable-diffusion-xl-base-1.0" w2) as (e3 & T3 & R3 & ->).
  rewrite (bind_ok _ _ _ _ R3).
  set (w3 := snd (ai_pipeline.generate_images svc prompts job_dir _ w2)) in *.
  assert (T : trace w3 = trace w ++
            [EvMakedirs job_dir; EvTextGeneration "gpt2" text; EvMakedirs job_dir]
            ++ image_events "stabilityai/stable-diffusion-xl-base-1.0" job_dir 0 prompts).
  { rewrite T3, T2, T1. now rewrite <- !app_assoc. }
  clear T1 T2 T3.
  destruct (generate_audio_traces svc enhanced_text voice_type audio_path key w3)
    as (e4 & T4 & req & P4 & OK4).
  destruct (fst (ai_pipeline.generate_audio svc enhanced_text voice_type audio_path key w3))
    as [a|e] eqn:R4.
  - rewrite (bind_ok _ _ _ _ R4).
    destruct (OK4 a eq_refl) as [-> ->].
    set (w4 := snd (ai_pipeline.generate_audio svc enhanced_text voice_type audio_path key w3)) in *.
    destruct (assemble_video_traces svc (image_paths_from job_dir 0 prompts)
                audio_path video_path duration w4) as (e5 & T5 & first & d & P5 & OK5).
    destruct (fst (ai_pipeline.assemble_video svc (image_paths_from job_dir 0 prompts)
                     audio_path video_path duration w4)) as [v|e] eqn:R5.
    + rewrite (bind_ok _ _ _ _ R5). cbn [ret fst snd].
      destruct (OK5 v eq_refl) as (-> & Hhead & ->).
      exists ([EvMakedirs job_dir; EvTextGeneration "gpt2" text; EvMakedirs job_dir]
              ++ image_events "stabilityai/stable-diffusion-xl-base-1.0" job_dir 0 prompts
              ++ audio_events req audio_path
              ++ assembly_events first audio_path video_path d).
      split; [rewrite T5, T4, T; now rewrite <- !app_assoc|].
      exists req, first, d, (audio_events req audio_path
                             ++ assembly_events first audio_path video_path d).
      split; [reflexivity|]. split; [reflexivity|].
      intros res [= <-]. auto.
    + rewrite (bind_raise _ _ _ _ R5). cbn [fst snd].
      exists ([EvMakedirs job_dir; EvTextGeneration "gpt2" text; EvMakedirs job_dir]
              ++ image_events "stabilityai/stable-diffusion-xl-base-1.0" job_dir 0 prompts
              ++ audio_events req audio_path ++ e5).
      split; [rewrite T5, T4, T; now rewrite <- !app_assoc|].
      exists req, first, d, (audio_events req audio_path ++ e5).
      split; [reflexivity|]. split; [now apply prefix_app | discriminate].
  - rewrite (bind_raise _ _ _ _ R4). cbn [fst snd].
    exists ([EvMakedirs job_dir; EvTextGeneration "gpt2" text; EvMakedirs job_dir]
            ++ image_events "stabilityai/stable-diffusion-xl-base-1.0" job_dir 0 prompts
            ++ e4).
    split; [rewrite T4, T; now rewrite <- !app_assoc|].
    exists req, EmptyString, 0, e4.
    split; [reflexivity|]. split; [now apply prefix_app_r | discriminate].
Qed.

End Pipeline.

(** ** Order of the stages and place of the artifacts *)

Section JobDirectory.

Variable svc : services.

Lemma prefix_omap {A B} (g : A -> option B) (l1 l2 : list A) :
  l1 `prefix_of` l2 -> omap g l1 `prefix_of` omap g l2.
Proof. intros [k ->]. rewrite omap_app. now exists (omap g k). Qed.

Lemma Forall_prefix {A} (P : A -> Prop) (l1 l2 : list A) :
  l1 `prefix_of` l2 -> Forall P l2 -> Forall P l1.
Proof. intros [k ->] H. now apply Forall_app in H as [H _]. Qed.






Lemma drawn_job_id_entry (out_dir : string) (w : world) :
  entry_of out_dir (drawn_job_id svc w) (OsPath.join out_dir (drawn_job_id svc w)).
Proof.
  apply join_entry; [apply to_str_nonempty|].
  unfold has_sep, drawn_job_id. now apply to_str_has_char.
Qed.

Lemma job_dir_no_dot (out_dir : string) (w : world) :
  has_char "." out_dir = false ->
  has_char "." (OsPath.join out_dir (drawn_job_id svc w)) = false.
Proof.
  intros Hd.
  assert (Hj : has_char "." (drawn_job_id svc w) = false).
  { unfold drawn_job_id. now apply to_str_has_char. }
  destruct (drawn_job_id_entry out_dir w) as (_ & _ & [-> | [-> _]]);
    rewrite !has_char_app, Hd, Hj; reflexivity.
Qed.


End JobDirectory.

(** ** Prompts *)

Section Prompts.

Lemma filter_map_comm {A B} (g : A -> B) (p : B -> bool) (l : list A) :
  List.filter p (map g l) = map g (List.filter (fun x => p (g x)) l).
Proof.
  induction l as [|x l IH]; [reflexivity|]. simpl.
  destruct (p (g x)); simpl; now rewrite IH.
Qed.

Lemma take_map {A B} (g : A -> B) (n : nat) (l : list A) :
  take n (map g l) = map g (take n l).
Proof. revert l. induction n; intros [|x l]; simpl; try reflexivity. now rewrite IHn. Qed.

(** The comprehension of the source, read as: strip the segments, keep the
    non-empty ones, take three, put the template in front. *)
Lemma extract_prompts_spec (template enhanced_text : string) :
  ai_pipeline.extract_prompts template enhanced_text
  = map (fun seg => template +:+ " educational image: " +:+ seg)
        (take 3 (List.filter Py.truthy (map Py.strip (Py.split "." enhanced_text)))).
Proof.
  unfold ai_pipeline.extract_prompts, Py.slice_to.
  rewrite filter_map_comm, <- take_map, map_map. reflexivity.
Qed.

Lemma extract_prompts_length (template enhanced_text : string) :
  (length (ai_pipeline.extract_prompts template enhanced_text) <= 3)%nat.
Proof. unfold ai_pipeline.extract_prompts, Py.slice_to. rewrite length_take. lia. Qed.

Lemma split_no_sep (c : ascii) (s : string) :
  Forall (fun seg => has_char c seg = false) (Py.split c s).
Proof.
  induction s as [|d s IH]; simpl; [repeat constructor|].
  destruct (Ascii.eqb d c) eqn:E; [constructor; [reflexivity | exact IH]|].
  destruct (Py.split c s) as [|seg segs]; [repeat constructor; simpl; now rewrite E|].
  inversion IH; subst. constructor; [simpl; now rewrite E | assumption].
Qed.

Lemma split_nonempty (c : ascii) (s : string) : Py.split c s <> [].
Proof.
  destruct s as [|d s]; simpl; [discriminate|].
  destruct (Ascii.eqb d c); [discriminate|].
  destruct (Py.split c s); discriminate.
Qed.

(** The segments, put together again with the separator, are the text. *)
Lemma split_join (c : ascii) (s : string) :
  Py.join (String c EmptyString) (Py.split c s) = s.
Proof.
  induction s as [|d s IH]; [reflexivity|]. simpl.
  pose proof (split_nonempty c s) as Hne.
  destruct (Py.split c s) as [|seg segs] eqn:E; [contradiction|].
  destruct (Ascii.eqb_spec d c) as [->|_].
  - change (Py.join (String c EmptyString) (EmptyString :: seg :: segs))
      with (EmptyString +:+ String c EmptyString
            +:+ Py.join (String c EmptyString) (seg :: segs)).
    now rewrite IH.
  - destruct segs as [|seg' segs].
    + simpl in *. now rewrite IH.
    + change (Py.join (String c EmptyString) (String d seg :: seg' :: segs))
        with (String d seg +:+ String c EmptyString
              +:+ Py.join (String c EmptyString) (seg' :: segs)).
      rewrite app_cons. f_equal. exact IH.
Qed.

Lemma lstrip_has_char (c : ascii) (s : string) :
  has_char c s = false -> has_char c (Py.lstrip s) = false.
Proof.
  induction s as [|d s IH]; [reflexivity|]. simpl. intros H.
  destruct (Py.isspace d); [|exact H].
  apply orb_false_elim in H as [_ H]. now apply IH.
Qed.

Lemma rstrip_has_char (c : ascii) (s : string) :
  has_char c s = false -> has_char c (Py.rstrip s) = false.
Proof.
  induction s as [|d s IH]; [reflexivity|]. simpl. intros H.
  apply orb_false_elim in H as [Hd H]. specialize (IH H).
  destruct (Py.rstrip s) as [|e r].
  - destruct (Py.isspace d); [reflexivity | simpl; now rewrite Hd].
  - cbn [has_char]. cbn [has_char] in IH. now rewrite Hd, IH.
Qed.

Lemma strip_has_char (c : ascii) (s : string) :
  has_char c s = false -> has_char c (Py.strip s) = false.
Proof. intros H. unfold Py.strip. now apply rstrip_has_char, lstrip_has_char. Qed.

Lemma stripped_segments (enhanced_text : string) :
  Forall (fun seg => seg <> EmptyString /\ has_char "." seg = false)
    (List.filter Py.truthy (map Py.strip (Py.split "." enhanced_text))).
Proof.
  apply Forall_forall. intros seg Hin.
  apply list_elem_of_In, filter_In in Hin as [Hin Ht].
  apply in_map_iff in Hin as (line & <- & Hline).
  split; [intros E; rewrite E in Ht; discriminate|].
  apply strip_has_char.
  pose proof (split_no_sep "." enhanced_text) as H.
  rewrite Forall_forall in H. apply H. now apply list_elem_of_In.
Qed.

End Prompts.

(** C8.  The prompts of an invocation are, in order, one per non-empty
    stripped period-separated segment of the enhanced text, for the first
    three such segments, each of the form
    [<template> educational image: <segment>]: at most three prompts.  The
    image model is called once per prompt whether or not the invocation
    returns, so at most three images are generated per job; a returned
    result carries these prompts and as many image paths. *)
Theorem pipeline_at_most_three_prompts :
  forall (svc : services) (text template voice_type user_id out_dir : string)
         (duration : Z) (key : option string) (w : world),
    let enhanced_text := text_generation svc "gpt2" text in
    let segments := List.filter Py.truthy (map Py.strip (Py.split "." enhanced_text)) in
    let prompts := map (fun seg => template +:+ " educational image: " +:+ seg)
                       (take 3 segments) in
    let run := ai_pipeline.process_video_pipeline svc text template voice_type user_id
                 out_dir duration key w in
    ai_pipeline.extract_prompts template enhanced_text = prompts /\
    Forall (fun seg => seg <> EmptyString /\ has_char "." seg = false) segments /\
    (length prompts <= 3)%nat /\
    (exists evs,
       trace (snd run) = trace w ++ evs /\
       omap generation_prompt evs = prompts /\
       length (omap saved_path evs) = length prompts) /\
    (forall res, fst run = Ok res ->
       ai_pipeline.prompts res = prompts /\
       ai_pipeline.enhanced_text res = enhanced_text /\
       length (ai_pipeline.image_paths res) = length prompts).
Proof.
  intros svc text template voice_type user_id out_dir duration key w
         enhanced_text segments prompts run.
  pose proof (extract_prompts_spec template enhanced_text) as Hspec.
  fold segments in Hspec. fold prompts in Hspec.
  split; [exact Hspec|].
  split; [apply stripped_segments|].
  split; [rewrite <- Hspec; apply extract_prompts_length|].
  subst run. rewrite pipeline_unfold.
  destruct (pipeline_body_traces svc (drawn_job_id svc w) text template voice_type out_dir
              duration key (with_urandom_reads S w))
    as (evs & Ht & req & first & d & tail & -> & Hp & Hok).
  cbv zeta in Hp, Hok. fold enhanced_text in Hp, Hok, Ht. rewrite Hspec in Hok, Ht.
  assert (Htail_gen : omap generation_prompt tail = []).
  { apply (prefix_omap generation_prompt) in Hp. now apply prefix_nil_inv in Hp. }
  assert (Htail_save : omap saved_path tail = []).
  { apply (prefix_omap saved_path) in Hp. now apply prefix_nil_inv in Hp. }
  split.
  - eexists. split; [exact Ht|].
    rewrite !omap_app, image_events_generations, image_events_saves, Htail_gen, Htail_save.
    rewrite !app_nil_r.
    split; [reflexivity|].
    change (length (image_paths_from (OsPath.join out_dir (drawn_job_id svc w)) 0 prompts)
            = length prompts).
    apply image_paths_from_length.
  - intros res Hres. destruct (Hok res Hres) as (-> & _ & _).
    cbn [ai_pipeline.prompts ai_pipeline.enhanced_text ai_pipeline.image_paths].
    repeat split. apply image_paths_from_length.
Qed.

(** ** The endpoints and the database *)

Section GenerateVideo.

Variable svc : services.

Lemma generate_video_is_pipeline (req : main.GenerateVideoRequest) (w : world) :
  main.generate_video svc req w
    = ai_pipeline.process_video_pipeline svc (main.text req) (main.template req)
        (main.voice_type req) (main.user_id req) "static/videos" 60
        (Some main.elevenlabs_api_key) w.
Proof.
  unfold main.generate_video. cbv zeta. unfold bind at 1.
  change (OsPath.join "static" "videos") with "static/videos".
  destruct (ai_pipeline.process_video_pipeline _ _ _ _ _ _ _ _ w) as [[res|e] w'];
    reflexivity.
Qed.

Lemma generate_video_keeps_db (req : main.GenerateVideoRequest) (w : world) :
  db (snd (main.generate_video svc req w)) = db w.
Proof.
  rewrite generate_video_is_pipeline, pipeline_unfold.
  now rewrite (keeps_pipeline_body svc db db_blind).
Qed.

End GenerateVideo.

(** C7.  The generate-video endpoint returns the result of the pipeline as
    it is, and leaves the persisted User and Video tables as they were. *)
Theorem generate_video_keeps_database :
  forall (svc : services) (req : main.GenerateVideoRequest) (w : world),
    main.generate_video svc req w
      = ai_pipeline.process_video_pipeline svc (main.text req) (main.template req)
          (main.voice_type req) (main.user_id req) "static/videos" 60
          (Some main.elevenlabs_api_key) w /\
    users (snd (main.generate_video svc req w)) = users w /\
    videos (snd (main.generate_video svc req w)) = videos w.
Proof.
  intros svc req w. split; [apply generate_video_is_pipeline|].
  pose proof (generate_video_keeps_db svc req w) as H.
  unfold db in H. injection H as Hu Hv. split; assumption.
Qed.

Section Users.

Lemma email_lookup_none (email : string) (us : list User) :
  head (List.filter (fun u => String.eqb (user_email u) email) us) = None <->
  forall u, u ∈ us -> user_email u <> email.
Proof.
  induction us as [|u us IH]; simpl.
  - split; [intros _ u Hu; inversion Hu | reflexivity].
  - destruct (String.eqb_spec (user_email u) email) as [E|E]; simpl.
    + split; [discriminate | intros H; exfalso; apply (H u); [left | exact E]].
    + rewrite IH. split.
      * intros H v Hv. apply elem_of_cons in Hv as [->|Hv]; auto.
      * intros H v Hv. apply H. now right.
Qed.

Lemma email_exists_false (email : string) (us : list User) :
  existsb (fun u => String.eqb (user_email u) email) us = false <->
  forall u, u ∈ us -> user_email u <> email.
Proof.
  induction us as [|u us IH]; simpl.
  - split; [intros _ u Hu; inversion Hu | reflexivity].
  - rewrite orb_false_iff, IH, String.eqb_neq. split.
    + intros [E H] v Hv. apply elem_of_cons in Hv as [->|Hv]; auto.
    + intros H. split; [apply H; left | intros v Hv; apply H; now right].
Qed.

Lemma email_known_dec (email : string) (w : world) :
  email_known email w \/ forall u, u ∈ users w -> user_email u <> email.
Proof.
  destruct (existsb (fun u => String.eqb (user_email u) email) (users w)) eqn:E.
  - left. apply existsb_exists in E as (u & Hu & E).
    exists u. split; [now apply list_elem_of_In | now apply String.eqb_eq].
  - right. now apply email_exists_false.
Qed.

(** What the endpoint does when the email is already persisted. *)
Lemma create_user_known (user : schemas.UserCreate) (w : world) :
  email_known (schemas.email user) w ->
  main.create_user user w = (Raise (HTTPException 400 "Email already registered"), w).
Proof.
  intros (u & Hu & E). unfold main.create_user, bind, crud.get_user_by_email.
  destruct (head _) as [v|] eqn:Hh; [reflexivity|].
  exfalso. rewrite email_lookup_none in Hh. exact (Hh u Hu E).
Qed.

(** What the endpoint does when the email is new. *)
Lemma create_user_new (user : schemas.UserCreate) (w : world) :
  (forall u, u ∈ users w -> user_email u <> schemas.email user) ->
  main.create_user user w =
  let db_user := {| user_id_ := crud.next_id (map user_id_ (users w));
                    user_email := schemas.email user;
                    user_created_at := utcnow w;
                    user_video_quota := 10 |} in
  (Ok db_user, with_users (fun us => us ++ [db_user]) w).
Proof.
  intros H. unfold main.create_user, bind, crud.get_user_by_email.
  pose proof (proj2 (email_lookup_none _ _) H) as Hh.
  pose proof (proj2 (email_exists_false _ _) H) as He.
  cbn [fst snd]. rewrite Hh. unfold crud.create_user. now rewrite He.
Qed.

End Users.

(** C9.  The create-user endpoint fails exactly when a user with the
    requested email is already persisted; the failure is then the HTTP 400
    error [Email already registered], and nothing is changed.  Otherwise it
    appends and returns a new user with that email, the Video table is as it
    was, and emails that were unique stay unique. *)
Theorem create_user_rejects_known_email :
  forall (user : schemas.UserCreate) (w : world),
    let r := fst (main.create_user user w) in
    let w' := snd (main.create_user user w) in
    (is_raise r <-> email_known (schemas.email user) w) /\
    (r = Raise (HTTPException 400 "Email already registered")
       <-> email_known (schemas.email user) w) /\
    (email_known (schemas.email user) w -> w' = w) /\
    (~ email_known (schemas.email user) w ->
       exists u, r = Ok u /\ user_email u = schemas.email user /\
                 users w' = users w ++ [u] /\ videos w' = videos w) /\
    (NoDup (map user_email (users w)) -> NoDup (map user_email (users w'))).
Proof.
  intros user w r w'. subst r w'.
  destruct (email_known_dec (schemas.email user) w) as [Hk|Hn].
  - rewrite (create_user_known user w Hk). simpl.
    split; [tauto|]. split; [tauto|]. split; [reflexivity|].
    split; [tauto|]. auto.
  - assert (Hnk : ~ email_known (schemas.email user) w).
    { intros (u & Hu & E). exact (Hn u Hu E). }
    rewrite (create_user_new user w Hn). cbv zeta. cbn [fst snd is_raise].
    split; [tauto|]. split; [split; [discriminate | tauto]|].
    split; [tauto|]. split.
    + intros _. eexists. repeat split.
    + intros Hnd. cbn [users with_users]. rewrite map_app. cbn [map user_email].
      apply NoDup_app. split; [exact Hnd|]. split; [|apply NoDup_singleton].
      intros e He Hin. apply list_elem_of_singleton in Hin. subst e.
      apply list_elem_of_In, in_map_iff in He as (u & E & Hu).
      apply (Hn u); [now apply list_elem_of_In | exact E].
Qed.

(** A run of C9's theorem: a second user is added next to the first. *)
Lemma create_user_rejects_known_email_witness :
  NoDup (map user_email
           (users (snd (main.create_user {| schemas.email := "bob@example.org" |} Sample.w1)))).
Proof.
  refine (proj2 (proj2 (proj2 (proj2
    (create_user_rejects_known_email {| schemas.email := "bob@example.org" |} Sample.w1)))) _).
  simpl. apply NoDup_singleton.
Defined.

Section Videos.

Lemma perform_videos (svc : services) (op : operation) (w : world) :
  videos (perform svc op w) = videos w \/
  exists video user_id,
    op = OpCrudCreateUserVideo video user_id /\
    perform svc op w = snd (crud.create_user_video video user_id w).
Proof.
  destruct op; simpl; try (left; reflexivity).
  - left. unfold main.create_user, bind, crud.get_user_by_email, crud.create_user. simpl.
    repeat case_match; reflexivity.
  - left. pose proof (generate_video_keeps_db svc req w) as H.
    unfold db in H. now injection H.
  - left. unfold crud.create_user. case_match; reflexivity.
  - right. eauto.
Qed.

End Videos.

(** C10.  [create_user_video], the one place where a Video row is made,
    gives it the status [processing].  No operation of the program changes
    a persisted Video: after any operation the rows that were there are
    there unchanged, followed by at most new rows of status [processing].
    The status endpoint answers [completed] with the sample video URL for
    every video identifier and every state, and changes nothing. *)
Theorem video_status_never_transitions :
  (forall (video : schemas.VideoCreate) (user_id : Z) (w : world),
     exists v, crud.create_user_video video user_id w
                 = (Ok v, with_videos (fun vs => vs ++ [v]) w) /\
               video_status v = "processing") /\
  (forall (svc : services) (op : operation) (w : world),
     exists new, videos (perform svc op w) = videos w ++ new /\
                 Forall (fun v => video_status v = "processing") new) /\
  (forall (video_id : string) (w : world),
     main.get_video_status video_id w
       = (Ok {| main.reply_video_id := video_id;
                main.reply_status := "completed";
                main.reply_video_url := "/videos/sample.mp4" |}, w)).
Proof.
  split; [|split].
  - intros video user_id w. eexists. split; reflexivity.
  - intros svc op w. destruct (perform_videos svc op w) as [E | (video & uid & -> & E)].
    + exists []. rewrite E, app_nil_r. split; [reflexivity | constructor].
    + rewrite E. eexists. split; [reflexivity|]. repeat constructor.
  - reflexivity.
Qed.


(** A run of C8's theorem: the sample enhanced text has four non-empty
    segments, of which three become prompts. *)
Lemma pipeline_at_most_three_prompts_witness :
  ai_pipeline.extract_prompts "modern"
    (text_generation (Sample.svc 200) "gpt2" "Hello")
  = ["modern educational image: Hello Plants make food";
     "modern educational image: They use light";
     "modern educational image: Water too"].
Proof.
  exact (proj1 (pipeline_at_most_three_prompts (Sample.svc 200)
                  "Hello" "modern" "Rachel" "1" "static/videos" 60 (Some "k") Sample.w0)).
Defined.

(** ** Listing the videos of a user *)

Section Listing.



End Listing.





(** ** Rows and their keys *)

Section Rows.

Lemma next_id_above (ids : list Z) : forall x, x ∈ ids -> x < crud.next_id ids.
Proof.
  unfold crud.next_id. induction ids as [|y ids IH]; intros x Hx; [inversion Hx|].
  simpl. apply elem_of_cons in Hx as [->|Hx]; [lia|]. specialize (IH x Hx). lia.
Qed.

Lemma next_id_fresh (ids : list Z) : crud.next_id ids ∉ ids.
Proof. intros H. apply next_id_above in H. lia. Qed.

Lemma NoDup_snoc_fresh {A} (l : list A) (x : A) : NoDup l -> x ∉ l -> NoDup (l ++ [x]).
Proof.
  intros Hl Hx. apply NoDup_app. split; [exact Hl|]. split; [|apply NoDup_singleton].
  intros y Hy Hin. apply list_elem_of_singleton in Hin. now subst.
Qed.

(** The two outcomes of [crud.create_user]. *)
Lemma crud_create_user_cases (user : schemas.UserCreate) (w : world) :
  (email_known (schemas.email user) w /\
   crud.create_user user w = (Raise IntegrityError, w)) \/
  ((forall u, u ∈ users w -> user_email u <> schemas.email user) /\
   crud.create_user user w =
   let db_user := {| user_id_ := crud.next_id (map user_id_ (users w));
                     user_email := schemas.email user;
                     user_created_at := utcnow w;
                     user_video_quota := 10 |} in
   (Ok db_user, with_users (fun us => us ++ [db_user]) w)).
Proof.
  destruct (email_known_dec (schemas.email user) w) as [Hk|Hn].
  - left. split; [exact Hk|]. unfold crud.create_user.
    destruct (existsb _ (users w)) eqn:E; [reflexivity|].
    rewrite email_exists_false in E. destruct Hk as (u & Hu & Eu). now destruct (E u Hu).
  - right. split; [exact Hn|]. unfold crud.create_user.
    now rewrite (proj2 (email_exists_false _ _) Hn).
Qed.

Lemma main_create_user_cases (user : schemas.UserCreate) (w : world) :
  (email_known (schemas.email user) w /\
   main.create_user user w = (Raise (HTTPException 400 "Email already registered"), w)) \/
  ((forall u, u ∈ users w -> user_email u <> schemas.email user) /\
   main.create_user user w =
   let db_user := {| user_id_ := crud.next_id (map user_id_ (users w));
                     user_email := schemas.email user;
                     user_created_at := utcnow w;
                     user_video_quota := 10 |} in
   (Ok db_user, with_users (fun us => us ++ [db_user]) w)).
Proof.
  destruct (email_known_dec (schemas.email user) w) as [Hk|Hn].
  - left. split; [exact Hk | now apply create_user_known].
  - right. split; [exact Hn | now apply create_user_new].
Qed.

Lemma email_filter_none (email : string) (us : list User) :
  (forall u, u ∈ us -> user_email u <> email) ->
  List.filter (fun u => String.eqb (user_email u) email) us = [].
Proof.
  induction us as [|u us IH]; intros H; [reflexivity|]. simpl.
  destruct (String.eqb_spec (user_email u) email) as [E|_].
  - destruct (H u); [left | exact E].
  - apply IH. intros v Hv. apply H. now right.
Qed.


End Rows.


(** X4.  A user the create-user endpoint returns is the one a lookup of
    that email finds afterwards; lookups of other emails answer as before.
    The user has a quota of 10 and a primary key no other user has. *)
Theorem create_user_then_lookup :
  forall (user : schemas.UserCreate) (w : world) (u : User),
    fst (main.create_user user w) = Ok u ->
    let w' := snd (main.create_user user w) in
    crud.get_user_by_email (schemas.email user) w' = (Ok (Some u), w') /\
    (forall e, e <> schemas.email user ->
       fst (crud.get_user_by_email e w') = fst (crud.get_user_by_email e w)) /\
    user_video_quota u = 10 /\
    user_id_ u ∉ map user_id_ (users w).
Proof.
  intros user w u Hu w'. subst w'.
  destruct (main_create_user_cases user w) as [[_ E]|[Hn E]]; rewrite E in *.
  { discriminate Hu. }
  cbv zeta in Hu |- *. cbn [fst snd] in Hu |- *. injection Hu as <-.
  split; [|split; [|split]].
  - unfold crud.get_user_by_email. cbn [users with_users]. rewrite List.filter_app.
    rewrite (email_filter_none _ _ Hn). cbn [List.filter user_email].
    now rewrite String.eqb_refl.
  - intros e He. unfold crud.get_user_by_email. cbn [fst users with_users].
    rewrite List.filter_app. cbn [List.filter user_email].
    destruct (String.eqb_spec (schemas.email user) e) as [E'|_]; [congruence|].
    now rewrite app_nil_r.
  - reflexivity.
  - apply next_id_fresh.
Qed.

(** A run of X4: a second user next to the first. *)
Lemma create_user_then_lookup_witness :
  exists u,
    crud.get_user_by_email "bob@example.org"
      (snd (main.create_user {| schemas.email := "bob@example.org" |} Sample.w1))
    = (Ok (Some u), snd (main.create_user {| schemas.email := "bob@example.org" |} Sample.w1))
    /\ user_id_ u = 2.
Proof.
  eexists. split.
  - refine (proj1 (create_user_then_lookup {| schemas.email := "bob@example.org" |}
                     Sample.w1 _ _)).
    reflexivity.
  - reflexivity.
Defined.

(** X5.  Whatever a first call of the create-user endpoint did, a second
    call with the same email is refused with the HTTP 400 error and changes
    nothing. *)
Theorem create_user_twice_refused :
  forall (user : schemas.UserCreate) (w : world),
    let w1 := snd (main.create_user user w) in
    main.create_user user w1
    = (Raise (HTTPException 400 "Email already registered"), w1).
Proof.
  intros user w w1. apply create_user_known. subst w1.
  destruct (main_create_user_cases user w) as [[Hk E]|[_ E]]; rewrite E.
  - exact Hk.
  - cbv zeta. cbn [snd]. eexists. split.
    + cbn [users with_users]. apply elem_of_app. right. apply list_elem_of_singleton.
      reflexivity.
    + reflexivity.
Qed.

(** X6.  Every operation keeps the tables well formed (unique emails,
    unique primary keys) and only ever appends to the User table: the rows
    that were there stay as they are, quota included, and at most one row
    is added, with a quota of 10. *)
Theorem operations_keep_tables_well_formed :
  forall (svc : services) (op : operation) (w : world),
    db_wf w ->
    db_wf (perform svc op w) /\
    exists new, users (perform svc op w) = users w ++ new /\
                (length new <= 1)%nat /\
                Forall (fun u => user_video_quota u = 10) new.
Proof.
  intros svc op w (He & Hi & Hv).
  assert (Hsame : users (perform svc op w) = users w ->
                  videos (perform svc op w) = videos w ->
                  db_wf (perform svc op w) /\
                  exists new, users (perform svc op w) = users w ++ new /\
                              (length new <= 1)%nat /\
                              Forall (fun u => user_video_quota u = 10) new).
  { intros Eu Ev. split; [unfold db_wf; now rewrite Eu, Ev|].
    exists []. rewrite app_nil_r. repeat split; auto. }
  assert (Hadd : forall u,
            perform svc op w = with_users (fun us => us ++ [u]) w ->
            (forall v, v ∈ users w -> user_email v <> user_email u) ->
            user_id_ u = crud.next_id (map user_id_ (users w)) ->
            user_video_quota u = 10 ->
            db_wf (perform svc op w) /\
            exists new, users (perform svc op w) = users w ++ new /\
                        (length new <= 1)%nat /\
                        Forall (fun u => user_video_quota u = 10) new).
  { intros u E Hn Hid Hq. rewrite E. cbn [users with_users]. split.
    - unfold db_wf. cbn [users videos with_users]. rewrite !map_app. cbn [map].
      split; [|split; [|exact Hv]].
      + apply NoDup_snoc_fresh; [exact He|]. intros Hin.
        apply list_elem_of_In, in_map_iff in Hin as (v & Ev & Hin).
        apply (Hn v); [now apply list_elem_of_In | exact Ev].
      + apply NoDup_snoc_fresh; [exact Hi|]. rewrite Hid. apply next_id_fresh.
    - exists [u]. repeat split; auto. }
  destruct op; cbn [perform] in *.
  - destruct (main_create_user_cases user w) as [[_ E]|[Hn E]]; rewrite E in *.
    + now apply Hsame.
    + cbv zeta in *. cbn [snd] in *. eapply Hadd; [reflexivity | exact Hn | reflexivity..].
  - now apply Hsame.
  - pose proof (generate_video_keeps_db svc req w) as H.
    unfold db in H. injection H as Hu Hv'. now apply Hsame.
  - now apply Hsame.
  - now apply Hsame.
  - destruct (crud_create_user_cases user w) as [[_ E]|[Hn E]]; rewrite E in *.
    + now apply Hsame.
    + cbv zeta in *. cbn [snd] in *. eapply Hadd; [reflexivity | exact Hn | reflexivity..].
  - now apply Hsame.
  - split; [|exists []; rewrite app_nil_r; repeat split; auto].
    unfold db_wf, crud.create_user_video. cbn [snd users videos with_videos].
    split; [exact He|]. split; [exact Hi|].
    rewrite map_app. cbn [map video_id_].
    apply NoDup_snoc_fresh; [exact Hv | apply next_id_fresh].
Qed.

(** A run of X6: the sample tables after a user is added. *)
Lemma operations_keep_tables_well_formed_witness :
  db_wf (perform (Sample.svc 200)
           (OpCreateUser {| schemas.email := "bob@example.org" |}) SampleDb.w2).
Proof.
  refine (proj1 (operations_keep_tables_well_formed (Sample.svc 200)
                   (OpCreateUser {| schemas.email := "bob@example.org" |}) SampleDb.w2 _)).
  split; [|split]; simpl.
  - apply NoDup_singleton.
  - apply NoDup_singleton.
  - repeat (constructor; [rewrite ?elem_of_cons, ?elem_of_nil; intuition discriminate|]).
    constructor.
Defined.

(** ** The pipeline does not look at the tables *)

Section NonInterference.

Variable svc : services.
Variables (fu : list User -> list User) (fv : list Video -> list Video).

Ltac prim := intros ?; simpl; repeat case_match; reflexivity.

Lemma commutes_bind {A B} (m : M A) (k : A -> M B) :
  commutes (db_update fu fv) m -> (forall a, commutes (db_update fu fv) (k a)) ->
  commutes (db_update fu fv) (bind m k).
Proof.
  intros Hm Hk w. unfold bind. rewrite Hm.
  destruct (m w) as [[a|e] w']; simpl; [apply Hk | reflexivity].
Qed.

Lemma commutes_ret {A} (a : A) : commutes (db_update fu fv) (ret a).
Proof. prim. Qed.

Lemma commutes_raise {A} (e : exn) : commutes (db_update fu fv) (@raise A e).
Proof. prim. Qed.

Lemma commutes_emit (e : event) : commutes (db_update fu fv) (emit e).
Proof. prim. Qed.

Lemma commutes_makedirs (path : string) : commutes (db_update fu fv) (makedirs path).
Proof. apply commutes_bind; [apply commutes_emit | intros _; prim]. Qed.

Lemma commutes_subprocess_run (cmd : list arg) :
  commutes (db_update fu fv) (ai_pipeline.subprocess_run svc cmd).
Proof. apply commutes_bind; [apply commutes_emit | intros _; prim]. Qed.

Lemma commutes_enhance_text (input_text model_name : string) :
  commutes (db_update fu fv) (ai_pipeline.enhance_text svc input_text model_name).
Proof. apply commutes_bind; [apply commutes_emit | intros _; apply commutes_ret]. Qed.

Lemma commutes_generate_audio (text voice out_path : string) (api_key : option string) :
  commutes (db_update fu fv) (ai_pipeline.generate_audio svc text voice out_path api_key).
Proof.
  unfold ai_pipeline.generate_audio, ai_pipeline.requests_post.
  apply commutes_bind; [destruct api_key; [apply commutes_ret | prim]|].
  intros k. cbv zeta. destruct (negb _); [apply commutes_raise|].
  apply commutes_bind; [apply commutes_bind; [apply commutes_emit | intros _; apply commutes_ret]|].
  intros response. destruct (negb _); [apply commutes_raise|].
  apply commutes_bind; [|intros _; apply commutes_ret].
  apply commutes_bind; [apply commutes_emit | intros _; prim].
Qed.

Lemma commutes_generate_images_loop (model_id out_dir : string) (prompts : list string) :
  forall i acc,
    commutes (db_update fu fv)
      (ai_pipeline.generate_images_loop svc model_id out_dir i prompts acc).
Proof.
  induction prompts as [|p prompts IH]; intros i acc; simpl; [apply commutes_ret|].
  apply commutes_bind.
  - apply commutes_bind; [apply commutes_emit | intros _; apply commutes_ret].
  - intros image. apply commutes_bind; [|intros _; apply IH].
    apply commutes_bind; [apply commutes_emit | intros _; prim].
Qed.

Lemma commutes_assemble_video (image_paths : list string) (audio_path out_path : string)
    (duration : Z) :
  commutes (db_update fu fv)
    (ai_pipeline.assemble_video svc image_paths audio_path out_path duration).
Proof.
  unfold ai_pipeline.assemble_video.
  apply commutes_bind; [destruct image_paths; [apply commutes_raise | apply commutes_ret]|].
  intros first. cbv zeta.
  apply commutes_bind; [unfold ai_pipeline.floordiv; destruct (_ =? 0);
                        [apply commutes_raise | apply commutes_ret]|].
  intros d.
  apply commutes_bind; [unfold ai_pipeline.str_recip; destruct (_ =? 0);
                        [apply commutes_raise | apply commutes_ret]|].
  intros framerate.
  apply commutes_bind; [apply commutes_subprocess_run | intros _].
  apply commutes_bind; [apply commutes_subprocess_run | intros _].
  apply commutes_bind; [|intros _; apply commutes_ret].
  apply commutes_bind; [apply commutes_emit | intros _; prim].
Qed.

Lemma commutes_process_video_pipeline (text template voice_type user_id out_dir : string)
    (duration : Z) (key : option string) :
  commutes (db_update fu fv)
    (ai_pipeline.process_video_pipeline svc text template voice_type user_id out_dir
       duration key).
Proof.
  unfold ai_pipeline.process_video_pipeline.
  apply commutes_bind; [prim | intros u]. cbv zeta.
  apply commutes_bind; [apply commutes_makedirs | intros _].
  apply commutes_bind; [apply commutes_enhance_text | intros enhanced].
  apply commutes_bind.
  { apply commutes_bind; [apply commutes_makedirs | intros _].
    apply commutes_generate_images_loop. }
  intros paths.
  apply commutes_bind; [apply commutes_generate_audio | intros _].
  apply commutes_bind; [apply commutes_assemble_video | intros _; apply commutes_ret].
Qed.

End NonInterference.

(** X7.  The generate-video endpoint does not read the database and does
    not use the user identifier of the request: with other contents of the
    tables and another user identifier, it returns the same result, makes
    the same outside calls and leaves the same files.  No user is looked
    up and no quota is checked or consumed. *)
Theorem generate_video_ignores_database :
  forall (svc : services) (req req' : main.GenerateVideoRequest) (w : world)
         (fu : list User -> list User) (fv : list Video -> list Video),
    main.text req' = main.text req ->
    main.template req' = main.template req ->
    main.voice_type req' = main.voice_type req ->
    let run := main.generate_video svc req w in
    let run' := main.generate_video svc req' (db_update fu fv w) in
    fst run' = fst run /\
    trace (snd run') = trace (snd run) /\
    files (snd run') = files (snd run) /\
    users (snd run') = fu (users w) /\
    videos (snd run') = fv (videos w).
Proof.
  intros svc req req' w fu fv Ht Hm Hv run run'. subst run run'.
  rewrite !generate_video_is_pipeline, Ht, Hm, Hv.
  assert (E : forall uid uid',
            ai_pipeline.process_video_pipeline svc (main.text req) (main.template req)
              (main.voice_type req) uid "static/videos" 60 (Some main.elevenlabs_api_key)
            = ai_pipeline.process_video_pipeline svc (main.text req) (main.template req)
              (main.voice_type req) uid' "static/videos" 60 (Some main.elevenlabs_api_key))
    by reflexivity.
  rewrite (E (main.user_id req') (main.user_id req)).
  rewrite commutes_process_video_pipeline. cbn [fst snd].
  pose proof (generate_video_keeps_db svc req w) as Hdb.
  rewrite generate_video_is_pipeline in Hdb. unfold db in Hdb. injection Hdb as Hu Hvid.
  repeat split; cbn [db_update users videos with_users with_videos]; congruence.
Qed.

(** A run of X7: the sample request for another user, on tables that hold
    rows. *)
Lemma generate_video_ignores_database_witness :
  fst (main.generate_video (Sample.svc 200)
         {| main.text := "Hello"; main.template := "modern";
            main.voice_type := "Rachel"; main.user_id := "2" |}
         (db_update (fun _ => [Sample.alice]) (fun vs => vs) Sample.w0))
  = fst (main.generate_video (Sample.svc 200) Sample.req Sample.w0).
Proof.
  exact (proj1 (generate_video_ignores_database (Sample.svc 200) Sample.req
                  {| main.text := "Hello"; main.template := "modern";
                     main.voice_type := "Rachel"; main.user_id := "2" |}
                  Sample.w0 (fun _ => [Sample.alice]) (fun vs => vs)
                  eq_refl eq_refl eq_refl)).
Defined.

(** X8.  Where [generate_audio] takes its key from: a non-empty key given
    as argument is the one sent, whatever the environment holds; an empty
    key given as argument is refused without a look at the environment;
    without a key argument the environment variable stands in for it, and
    its absence is refused before anything is sent. *)
Theorem generate_audio_key_precedence :
  forall (svc : services) (text voice out_path : string) (w : world),
    (forall k, k <> EmptyString ->
       exists evs,
         trace (snd (ai_pipeline.generate_audio svc text voice out_path (Some k) w))
         = trace w ++ EvHttpPost (tts_request text voice k) :: evs) /\
    (exists msg,
       ai_pipeline.generate_audio svc text voice out_path (Some EmptyString) w
       = (Raise (RuntimeError msg), w)) /\
    (forall k, environ w !! "ELEVENLABS_API_KEY" = Some k ->
       ai_pipeline.generate_audio svc text voice out_path None w
       = ai_pipeline.generate_audio svc text voice out_path (Some k) w) /\
    (environ w !! "ELEVENLABS_API_KEY" = None ->
       exists msg,
         ai_pipeline.generate_audio svc text voice out_path None w
         = (Raise (RuntimeError msg), w)).
Proof.
  intros svc text voice out_path w. split; [|split; [|split]].
  - intros k Hk. rewrite generate_audio_key. cbv zeta.
    change (effective_key (Some k) w) with k.
    destruct (Py.truthy k) eqn:E; [|apply truthy_false_iff in E; contradiction].
    cbn [negb]. destruct (negb _); cbn [snd trace with_trace with_files].
    + now exists [].
    + exists [EvFileWrite out_path]. now rewrite <- app_assoc.
  - eexists. rewrite generate_audio_key. reflexivity.
  - intros k Hk. rewrite !generate_audio_key. unfold effective_key. now rewrite Hk.
  - intros Hn. eexists. rewrite generate_audio_key. unfold effective_key. rewrite Hn.
    reflexivity.
Qed.

(** A run of X8: the key of the argument is sent although the environment
    holds another. *)
Lemma generate_audio_key_precedence_witness :
  exists evs,
    trace (snd (ai_pipeline.generate_audio (Sample.svc 200) "hi" "Rachel" "out.mp3"
                  (Some "k") SampleDb.w_env))
    = trace SampleDb.w_env ++ EvHttpPost (tts_request "hi" "Rachel" "k") :: evs.
Proof.
  refine (proj1 (generate_audio_key_precedence (Sample.svc 200) "hi" "Rachel" "out.mp3"
                   SampleDb.w_env) "k" _).
  discriminate.
Defined.

(** ** Files of the image stage *)

Section ImageFiles.

Variable svc : services.

Lemma generate_images_loop_files (model_id out_dir : string) (prompts : list string) :
  forall (i : nat) (acc : list string) (w : world),
    files (snd (ai_pipeline.generate_images_loop svc model_id out_dir i prompts acc w))
      = image_files svc model_id out_dir i prompts (files w) /\
    dirs (snd (ai_pipeline.generate_images_loop svc model_id out_dir i prompts acc w))
      = dirs w.
Proof.
  induction prompts as [|prompt prompts IH]; intros i acc w; [split; reflexivity|].
  cbn [ai_pipeline.generate_images_loop image_files].
  unfold bind at 1. cbn [ai_pipeline.run_pipe bind emit ret fst snd].
  unfold bind at 1. cbn [ai_pipeline.image_save bind emit ret fst snd].
  fold (img_name i).
  match goal with
  | |- context [ai_pipeline.generate_images_loop _ _ _ _ _ ?acc' ?w'] =>
      destruct (IH (S i) acc' w') as [Hf Hd]
  end.
  rewrite Hf, Hd. split; reflexivity.
Qed.

Lemma generate_images_files_run (prompts : list string) (out_dir model_id : string) (w : world) :
  files (snd (ai_pipeline.generate_images svc prompts out_dir model_id w))
    = image_files svc model_id out_dir 0 prompts (files w) /\
  dirs (snd (ai_pipeline.generate_images svc prompts out_dir model_id w))
    = {[out_dir]} ∪ dirs w.
Proof.
  unfold ai_pipeline.generate_images.
  unfold bind at 1. cbn [makedirs bind emit fst snd].
  match goal with
  | |- context [ai_pipeline.generate_images_loop _ _ _ _ _ ?acc' ?w'] =>
      destruct (generate_images_loop_files model_id out_dir prompts 0 acc' w') as [Hf Hd]
  end.
  rewrite Hf, Hd. split; reflexivity.
Qed.

Lemma image_files_other (model_id out_dir : string) (prompts : list string) :
  forall i fs p,
    p ∉ image_paths_from out_dir i prompts ->
    image_files svc model_id out_dir i prompts fs !! p = fs !! p.
Proof.
  induction prompts as [|prompt prompts IH]; intros i fs p Hp; [reflexivity|].
  cbn [image_files image_paths_from] in *.
  apply not_elem_of_cons in Hp as [Hne Hp].
  rewrite IH by exact Hp. now apply lookup_insert_ne.
Qed.

Lemma image_files_lookup (model_id out_dir : string) (prompts : list string) :
  forall i fs k prompt,
    prompts !! k = Some prompt ->
    image_files svc model_id out_dir i prompts fs !! OsPath.join out_dir (img_name (i + k))
      = Some (diffusion svc model_id prompt).
Proof.
  induction prompts as [|p prompts IH]; intros i fs k prompt Hk; [discriminate|].
  cbn [image_files]. destruct k as [|k].
  - injection Hk as ->. rewrite Nat.add_0_r.
    rewrite image_files_other; [apply lookup_insert_eq|].
    pose proof (image_paths_from_NoDup out_dir (prompt :: prompts) i) as Hnd.
    cbn [image_paths_from] in Hnd. now apply NoDup_cons in Hnd as [Hnd _].
  - simpl in Hk. replace (i + S k)%nat with (S i + k)%nat by lia. now apply IH.
Qed.

End ImageFiles.


(** ** Files of the assembly stage *)

Section AssemblyFiles.

Variable svc : services.

Lemma replace_absent (old new s : string) :
  contains old s = false -> Py.replace old new s = s.
Proof.
  unfold Py.replace. induction s as [|c s IH]; [reflexivity|].
  cbn [contains]. intros H. apply orb_false_elim in H as [Hp Hs].
  cbn [Py.replace_from]. rewrite Hp. now rewrite IH.
Qed.

Lemma tmp_of_differs (s : string) :
  contains ".mp4" s = true -> tmp_of s <> s.
Proof.
  unfold tmp_of, Py.replace. induction s as [|c s IH]; [discriminate|].
  cbn [contains]. intros H. cbn [Py.replace_from].
  destruct (String.prefix ".mp4" (String c s)) eqn:Hp.
  - cbn [String.prefix] in Hp. destruct (ascii_dec "." c) as [<-|]; [|discriminate].
    intros E. discriminate E.
  - cbn [orb] in H. intros E. injection E as E. now apply IH.
Qed.

Lemma contains_app_r (old s t : string) :
  contains old t = true -> contains old (s +:+ t) = true.
Proof.
  intros H. induction s as [|c s IH]; [exact H|].
  rewrite app_cons. cbn [contains]. rewrite IH. apply orb_true_r.
Qed.

(** The three ways the two tool runs and the removal can go. *)
Lemma run_tools_cases (first audio_path out_path : string) (d : Z) (w : world) :
  let c1 := frames_cmd first out_path d in
  let c2 := mux_cmd audio_path out_path in
  let tmp := tmp_of out_path in
  let fs1 := <[tmp := tool_output svc c1 (files w)]> (files w) in
  let fs2 := <[out_path := tool_output svc c2 fs1]> fs1 in
  let r := fst (run_tools svc first audio_path out_path d w) in
  let w' := snd (run_tools svc first audio_path out_path d w) in
  (tool_exit svc c1 (files w) <> 0 /\
   r = Raise (CalledProcessError (tool_exit svc c1 (files w)) c1) /\
   files w' = files w /\ trace w' = trace w ++ [EvRun c1]) \/
  (tool_exit svc c1 (files w) = 0 /\ tool_exit svc c2 fs1 <> 0 /\
   r = Raise (CalledProcessError (tool_exit svc c2 fs1) c2) /\
   files w' = fs1 /\ trace w' = trace w ++ [EvRun c1; EvRun c2]) \/
  (tool_exit svc c1 (files w) = 0 /\ tool_exit svc c2 fs1 = 0 /\
   r = Ok out_path /\
   files w' = delete tmp fs2 /\
   trace w' = trace w ++ [EvRun c1; EvRun c2; EvRemove tmp]).
Proof.
  intros c1 c2 tmp fs1 fs2 r w'. subst r w'.
  unfold run_tools, ai_pipeline.subprocess_run, remove.
  fold c1 c2. fold (tmp_of out_path). fold tmp.
  unfold bind, emit, ret. cbn [fst snd files with_trace].
  destruct (Z.eqb_spec (tool_exit svc c1 (files w)) 0) as [E1|E1].
  - change (ai_pipeline.output_of c1) with (Some tmp). cbn [files with_files with_trace].
    fold fs1.
    destruct (Z.eqb_spec (tool_exit svc c2 fs1) 0) as [E2|E2].
    + change (ai_pipeline.output_of c2) with (Some out_path).
      cbn [files with_files with_trace]. fold fs2.
      match goal with
      | |- context [match ?m !! ?k with Some _ => _ | None => _ end] =>
          assert (Hin : is_Some (m !! k))
            by (rewrite lookup_insert; destruct (decide _);
                [eauto | rewrite lookup_insert_eq; eauto]);
          destruct Hin as [x Hx]; rewrite Hx
      end.
      right. right. cbn [fst snd files trace with_files with_trace].
      rewrite <- !app_assoc. auto.
    + right. left. cbn [fst snd files trace with_files with_trace].
      rewrite <- !app_assoc. auto.
  - left. cbn [fst snd files trace with_files with_trace]. auto.
Qed.

(** What has happened when [assemble_video] returns. *)
Lemma assemble_video_ok_inv (image_paths : list string) (audio_path out_path : string)
    (duration : Z) (w : world) (p : string) :
  fst (ai_pipeline.assemble_video svc image_paths audio_path out_path duration w) = Ok p ->
  exists first d,
    head image_paths = Some first /\ d = duration / Z.of_nat (length image_paths) /\
    d <> 0 /\ p = out_path /\
    let c1 := frames_cmd first out_path d in
    let c2 := mux_cmd audio_path out_path in
    let fs1 := <[tmp_of out_path := tool_output svc c1 (files w)]> (files w) in
    let fs2 := <[out_path := tool_output svc c2 fs1]> fs1 in
    files (snd (ai_pipeline.assemble_video svc image_paths audio_path out_path duration w))
      = delete (tmp_of out_path) fs2 /\
    trace (snd (ai_pipeline.assemble_video svc image_paths audio_path out_path duration w))
      = trace w ++ [EvRun c1; EvRun c2; EvRemove (tmp_of out_path)].
Proof.
  rewrite assemble_video_unfold.
  destruct image_paths as [|first rest]; [discriminate|]. cbv zeta.
  destruct (Z.eqb_spec (duration / Z.of_nat (length (first :: rest))) 0) as [E|E];
    [discriminate|].
  intros H. exists first, (duration / Z.of_nat (length (first :: rest))).
  split; [reflexivity|]. split; [reflexivity|]. split; [exact E|].
  destruct (run_tools_cases first audio_path out_path
              (duration / Z.of_nat (length (first :: rest))) w)
    as [(_ & Hr & _)|[(_ & _ & Hr & _)|(_ & _ & Hr & Hf & Ht)]]; cbv zeta in *;
    rewrite Hr in H; try discriminate.
  injection H as <-. auto.
Qed.

End AssemblyFiles.

(** X10.  [assemble_video] looks at its image list only for the directory of
    the first path and for the number of paths: two lists of the same
    length whose first paths are in the same directory give the same run.
    The frames are the files [img_1.png], [img_2.png], ... of that
    directory, whatever the other paths say. *)
Theorem assemble_video_uses_first_directory_and_count :
  forall (svc : services) (l1 l2 : list string) (audio_path out_path : string)
         (duration : Z) (w : world),
    length l1 = length l2 ->
    OsPath.dirname <$> head l1 = OsPath.dirname <$> head l2 ->
    ai_pipeline.assemble_video svc l1 audio_path out_path duration w
    = ai_pipeline.assemble_video svc l2 audio_path out_path duration w.
Proof.
  intros svc l1 l2 audio_path out_path duration w Hlen Hdir.
  rewrite !assemble_video_unfold.
  destruct l1 as [|f1 r1], l2 as [|f2 r2]; try discriminate; [reflexivity|].
  cbv zeta. rewrite Hlen. injection Hdir as Hdir.
  destruct (_ =? 0); [reflexivity|].
  unfold run_tools, frames_cmd. now rewrite Hdir.
Qed.

(** A run of X10: paths that are not even image names, in the directory of
    the sample images. *)
Lemma assemble_video_uses_first_directory_and_count_witness :
  ai_pipeline.assemble_video (Sample.svc 200) ["d/img_1.png"; "d/img_2.png"]
    "a.mp3" "o.mp4" 60 Sample.w0
  = ai_pipeline.assemble_video (Sample.svc 200) ["d/x.jpg"; "elsewhere/y.gif"]
    "a.mp3" "o.mp4" 60 Sample.w0.
Proof.
  apply assemble_video_uses_first_directory_and_count; reflexivity.
Defined.

(** X11.  When [assemble_video] returns for an output path that has [.mp4]
    in it, it returns that path; the file is there, the intermediate file
    is gone, and every other file is as before. *)
Theorem assemble_video_leaves_output :
  forall (svc : services) (image_paths : list string) (audio_path out_path : string)
         (duration : Z) (w : world) (p : string),
    contains ".mp4" out_path = true ->
    fst (ai_pipeline.assemble_video svc image_paths audio_path out_path duration w) = Ok p ->
    let w' := snd (ai_pipeline.assemble_video svc image_paths audio_path out_path duration w) in
    p = out_path /\
    is_Some (files w' !! out_path) /\
    files w' !! tmp_of out_path = None /\
    (forall q, q <> out_path -> q <> tmp_of out_path -> files w' !! q = files w !! q).
Proof.
  intros svc image_paths audio_path out_path duration w p Hc Hok w'. subst w'.
  pose proof (tmp_of_differs out_path Hc) as Hne.
  destruct (assemble_video_ok_inv svc _ _ _ _ _ _ Hok)
    as (first & d & _ & _ & _ & -> & Hf & _).
  cbv zeta in Hf. rewrite Hf. split; [reflexivity|]. split; [|split].
  - rewrite lookup_delete_ne by exact Hne. rewrite lookup_insert_eq. eauto.
  - apply lookup_delete_eq.
  - intros q Hq1 Hq2.
    rewrite lookup_delete_ne by congruence.
    rewrite lookup_insert_ne by congruence.
    now rewrite lookup_insert_ne by congruence.
Qed.

(** A run of X11 on the sample services. *)
Lemma assemble_video_leaves_output_witness :
  is_Some (files (snd (ai_pipeline.assemble_video (Sample.svc 200) ["d/img_1.png"]
                         "a.mp3" "o.mp4" 60 Sample.w0)) !! "o.mp4").
Proof.
  refine (proj1 (proj2 (assemble_video_leaves_output (Sample.svc 200) ["d/img_1.png"]
                          "a.mp3" "o.mp4" 60 Sample.w0 "o.mp4" _ _))).
  - reflexivity.
  - vm_compute. reflexivity.
Defined.

(** X12.  When [assemble_video] returns for an output path that has no
    [.mp4] in it, the intermediate file is the output file itself, and the
    final removal deletes it: the returned path names no file. *)
Theorem assemble_video_deletes_output_without_mp4 :
  forall (svc : services) (image_paths : list string) (audio_path out_path : string)
         (duration : Z) (w : world) (p : string),
    contains ".mp4" out_path = false ->
    fst (ai_pipeline.assemble_video svc image_paths audio_path out_path duration w) = Ok p ->
    let w' := snd (ai_pipeline.assemble_video svc image_paths audio_path out_path duration w) in
    p = out_path /\ tmp_of out_path = out_path /\ files w' !! out_path = None.
Proof.
  intros svc image_paths audio_path out_path duration w p Hc Hok w'. subst w'.
  assert (Ht : tmp_of out_path = out_path) by now apply replace_absent.
  destruct (assemble_video_ok_inv svc _ _ _ _ _ _ Hok)
    as (first & d & _ & _ & _ & -> & Hf & _).
  cbv zeta in Hf. rewrite Hf, Ht. split; [reflexivity|]. split; [reflexivity|].
  apply lookup_delete_eq.
Qed.

(** A run of X12: an output named [out.avi]. *)
Lemma assemble_video_deletes_output_without_mp4_witness :
  fst (ai_pipeline.assemble_video (Sample.svc 200) ["d/img_1.png"]
         "a.mp3" "out.avi" 60 Sample.w0) = Ok "out.avi" /\
  files (snd (ai_pipeline.assemble_video (Sample.svc 200) ["d/img_1.png"]
                "a.mp3" "out.avi" 60 Sample.w0)) !! "out.avi" = None.
Proof.
  assert (Hok : fst (ai_pipeline.assemble_video (Sample.svc 200) ["d/img_1.png"]
                       "a.mp3" "out.avi" 60 Sample.w0) = Ok "out.avi")
    by (vm_compute; reflexivity).
  split; [exact Hok|].
  exact (proj2 (proj2 (assemble_video_deletes_output_without_mp4 (Sample.svc 200)
                         ["d/img_1.png"] "a.mp3" "out.avi" 60 Sample.w0 "out.avi"
                         eq_refl Hok))).
Defined.



(** ** The pipeline, stage by stage *)

Section PipelineStages.

Variable svc : services.

(** The three ways [generate_audio] can go. *)
Lemma generate_audio_cases (text voice out_path : string) (api_key : option string) (w : world) :
  let key := effective_key api_key w in
  let req := tts_request text voice key in
  let resp := http_post svc req in
  let r := fst (ai_pipeline.generate_audio svc text voice out_path api_key w) in
  let w' := snd (ai_pipeline.generate_audio svc text voice out_path api_key w) in
  (key = EmptyString /\ (exists msg, r = Raise (RuntimeError msg)) /\ w' = w) \/
  (key <> EmptyString /\ status_code resp <> 200 /\
   (exists msg, r = Raise (RuntimeError msg)) /\
   files w' = files w /\ trace w' = trace w ++ [EvHttpPost req]) \/
  (key <> EmptyString /\ status_code resp = 200 /\ r = Ok out_path /\
   files w' = <[out_path := content resp]> (files w) /\
   trace w' = trace w ++ audio_events req out_path).
Proof.
  intros key req resp r w'. subst r w'. rewrite generate_audio_key.
  fold key. cbv zeta. fold req. fold resp.
  destruct (Py.truthy key) eqn:Hk; cbn [negb].
  - assert (Hne : key <> EmptyString).
    { intros E. apply truthy_false_iff in E. congruence. }
    destruct (Z.eqb_spec (status_code resp) 200) as [Hs|Hs]; cbn [negb fst snd].
    + right. right. repeat split; auto.
      cbn [trace with_files with_trace]. now rewrite <- app_assoc.
    + right. left. repeat split; eauto.
  - left. apply truthy_false_iff in Hk. repeat split; eauto.
Qed.

Lemma after_images_facts (job_dir text template : string) (w : world) :
  let prompts := ai_pipeline.extract_prompts template (text_generation svc "gpt2" text) in
  trace (after_images svc job_dir text template w)
    = trace w ++ [EvMakedirs job_dir; EvTextGeneration "gpt2" text; EvMakedirs job_dir]
      ++ image_events "stabilityai/stable-diffusion-xl-base-1.0" job_dir 0 prompts /\
  files (after_images svc job_dir text template w)
    = image_files svc "stabilityai/stable-diffusion-xl-base-1.0" job_dir 0 prompts (files w) /\
  environ (after_images svc job_dir text template w) = environ w.
Proof.
  intros prompts. unfold after_images. fold prompts.
  set (w1 := snd (makedirs job_dir w)).
  set (w2 := snd (ai_pipeline.enhance_text svc text "gpt2" w1)).
  destruct (generate_images_run svc prompts job_dir
              "stabilityai/stable-diffusion-xl-base-1.0" w2) as [_ Ht].
  destruct (generate_images_files_run svc prompts job_dir
              "stabilityai/stable-diffusion-xl-base-1.0" w2) as [Hf _].
  split; [|split].
  - rewrite Ht. subst w2 w1. cbn. now rewrite <- !app_assoc.
  - rewrite Hf. reflexivity.
  - rewrite (keeps_generate_images svc environ); [reflexivity | split; reflexivity].
Qed.

(** The pipeline after its deterministic start: the audio stage, then the
    assembly stage, each ending the invocation when it raises. *)
Lemma pipeline_body_split (job_id text template voice_type out_dir : string)
    (duration : Z) (key : option string) (w : world) :
  let job_dir := OsPath.join out_dir job_id in
  let enhanced_text := text_generation svc "gpt2" text in
  let prompts := ai_pipeline.extract_prompts template enhanced_text in
  let image_paths := image_paths_from job_dir 0 prompts in
  let audio_path := OsPath.join job_dir "audio.mp3" in
  let video_path := OsPath.join job_dir "video.mp4" in
  pipeline_body svc job_id text template voice_type out_dir duration key w
  = match ai_pipeline.generate_audio svc enhanced_text voice_type audio_path key
            (after_images svc job_dir text template w) with
    | (Raise e, w4) => (Raise e, w4)
    | (Ok _, w4) =>
        match ai_pipeline.assemble_video svc image_paths audio_path video_path duration w4 with
        | (Raise e, w5) => (Raise e, w5)
        | (Ok _, w5) =>
            (Ok {| ai_pipeline.job_id := job_id;
                   ai_pipeline.video_path := video_path;
                   ai_pipeline.image_paths := image_paths;
                   ai_pipeline.audio_path := audio_path;
                   ai_pipeline.prompts := prompts;
                   ai_pipeline.enhanced_text := enhanced_text |}, w5)
        end
    end.
Proof.
  intros job_dir enhanced_text prompts image_paths audio_path video_path.
  unfold pipeline_body. cbv zeta. fold job_dir.
  rewrite (bind_ok _ _ _ tt) by reflexivity.
  rewrite (bind_ok _ _ _ enhanced_text) by reflexivity.
  fold prompts.
  rewrite (bind_ok _ _ _ image_paths) by apply generate_images_run.
  fold audio_path video_path.
  change (snd (ai_pipeline.generate_images svc prompts job_dir _ _))
    with (after_images svc job_dir text template w).
  unfold bind.
  destruct (ai_pipeline.generate_audio _ _ _ _ _ _) as [[a|e] w4]; [|reflexivity].
  destruct (ai_pipeline.assemble_video _ _ _ _ _ _) as [[v|e] w5]; reflexivity.
Qed.

(** With no dot in [out_dir], the intermediate file of the job is a file
    of the job directory. *)
Lemma tmp_in_job_dir (out_dir : string) (w : world) :
  has_char "." out_dir = false ->
  let job_dir := OsPath.join out_dir (drawn_job_id svc w) in
  tmp_of (OsPath.join job_dir "video.mp4") = OsPath.join job_dir "video_tmp.mp4".
Proof.
  intros Hdot job_dir.
  destruct (entry_shape _ _ _ (drawn_job_id_entry svc out_dir w)) as [Hd He].
  fold job_dir in Hd, He.
  assert (Hj : forall name, Py.startswith "/" name = false ->
                            OsPath.join job_dir name = (job_dir +:+ "/") +:+ name).
  { intros name Hn. unfold OsPath.join. rewrite Hn, Hd, He. simpl.
    now rewrite app_assoc_str. }
  rewrite !Hj by reflexivity. unfold tmp_of. rewrite replace_mp4_skip; [reflexivity|].
  rewrite has_char_app. subst job_dir. now rewrite job_dir_no_dot.
Qed.

Lemma join_name_ne (dir a b : string) :
  has_sep a = false -> has_sep b = false -> a <> b ->
  OsPath.join dir a <> OsPath.join dir b.
Proof.
  intros Ha Hb Hne E. apply Hne. eapply join_inj; [| |exact E]; now apply no_sep_relative.
Qed.

Lemma img_name_head (i : nat) : exists rest, img_name i = String "i" rest.
Proof. eexists. reflexivity. Qed.

Lemma image_path_not (dir name : string) (prompts : list string) :
  has_sep name = false -> (forall rest, name <> String "i" rest) ->
  forall i, OsPath.join dir name ∉ image_paths_from dir i prompts.
Proof.
  intros Hs Hn. induction prompts as [|p prompts IH]; intros i; simpl.
  - apply not_elem_of_nil.
  - apply not_elem_of_cons. split; [|apply IH].
    apply join_name_ne; [exact Hs | apply img_name_no_sep|].
    destruct (img_name_head i) as [rest E]. rewrite E. apply Hn.
Qed.

End PipelineStages.



(** X15.  With a duration of at least 3 seconds an invocation never fails
    with a division error: there are at most three images, so the
    per-image duration is at least 1.  With the 60 seconds of the endpoint
    the per-image durations add up to exactly 60. *)
Theorem pipeline_no_division_error :
  forall (svc : services) (text template voice_type user_id out_dir : string)
         (duration : Z) (key : option string) (w : world),
    3 <= duration ->
    let img_count :=
      Z.of_nat (length (ai_pipeline.extract_prompts template
                          (text_generation svc "gpt2" text))) in
    fst (ai_pipeline.process_video_pipeline svc text template voice_type user_id
           out_dir duration key w) <> Raise ZeroDivisionError /\
    (1 <= img_count -> 1 <= duration / img_count) /\
    (duration = 60 -> 1 <= img_count -> img_count * (duration / img_count) = duration).
Proof.
  intros svc text template voice_type user_id out_dir duration key w Hd img_count.
  pose proof (extract_prompts_length template (text_generation svc "gpt2" text)) as Hlen.
  assert (Hn : img_count <= 3) by (subst img_count; lia).
  assert (Hq : 1 <= img_count -> 1 <= duration / img_count).
  { intros H1. apply Z.div_le_lower_bound; lia. }
  split; [|split; [exact Hq|]].
  - rewrite pipeline_unfold, pipeline_body_split. cbv zeta.
    set (job_dir := OsPath.join out_dir (drawn_job_id svc w)).
    set (prompts := ai_pipeline.extract_prompts template (text_generation svc "gpt2" text)) in *.
    set (w3 := after_images svc job_dir text template (with_urandom_reads S w)).
    pose proof (generate_audio_cases svc (text_generation svc "gpt2" text) voice_type
                  (OsPath.join job_dir "audio.mp3") key w3) as Hc.
    cbv zeta in Hc.
    destruct (ai_pipeline.generate_audio svc _ voice_type _ key w3) as [r4 w4].
    cbn [fst snd] in Hc.
    destruct Hc as [(_ & [msg ->] & _)|[(_ & _ & [msg ->] & _)|(_ & _ & -> & _)]];
      try discriminate.
    rewrite assemble_video_unfold.
    pose proof (image_paths_from_length job_dir prompts 0) as Hpl.
    destruct (image_paths_from job_dir 0 prompts) as [|first rest] eqn:Ep; [discriminate|].
    cbv zeta. rewrite Hpl. fold img_count.
    assert (H1 : 1 <= img_count) by (subst img_count; rewrite <- Hpl; simpl; lia).
    specialize (Hq H1).
    destruct (Z.eqb_spec (duration / img_count) 0) as [E|_]; [lia|].
    destruct (run_tools_trace svc first (OsPath.join job_dir "audio.mp3")
                (OsPath.join job_dir "video.mp4") (duration / img_count) w4)
      as (evs & _ & Hz & _).
    destruct (run_tools svc first _ _ _ w4) as [[v|e] w5]; cbn [fst] in *;
      [discriminate | intros E; injection E as E; subst e; now apply Hz].
  - intros -> H1.
    assert (Hcases : img_count = 1 \/ img_count = 2 \/ img_count = 3) by lia.
    destruct Hcases as [E | [E | E]]; rewrite E; reflexivity.
Qed.

(** A run of X15: the sample request with the 60 seconds of the endpoint. *)
Lemma pipeline_no_division_error_witness :
  fst (ai_pipeline.process_video_pipeline (Sample.svc 200) "Hello" "modern" "Rachel" "1"
         "static/videos" 60 (Some "k") Sample.w0) <> Raise ZeroDivisionError.
Proof.
  refine (proj1 (pipeline_no_division_error (Sample.svc 200) "Hello" "modern" "Rachel" "1"
                   "static/videos" 60 (Some "k") Sample.w0 _)).
  lia.
Defined.

Section PipelineFiles.

Variable svc : services.

Lemma effective_key_environ (key : option string) (w1 w2 : world) :
  environ w1 = environ w2 -> effective_key key w1 = effective_key key w2.
Proof. intros E. unfold effective_key. now rewrite E. Qed.

Lemma job_names_distinct (job_dir : string) :
  OsPath.join job_dir "audio.mp3" <> OsPath.join job_dir "video.mp4" /\
  OsPath.join job_dir "audio.mp3" <> OsPath.join job_dir "video_tmp.mp4" /\
  OsPath.join job_dir "video.mp4" <> OsPath.join job_dir "video_tmp.mp4".
Proof. repeat split; apply join_name_ne; try reflexivity; discriminate. Qed.

Lemma image_events_no_post (model_id out_dir : string) (prompts : list string) :
  forall i, Forall (fun e => is_post e = false) (image_events model_id out_dir i prompts).
Proof.
  induction prompts as [|p prompts IH]; intros i; simpl; [constructor|].
  constructor; [reflexivity|]. constructor; [reflexivity | apply IH].
Qed.

Lemma job_names_not_images (job_dir : string) (prompts : list string) (i : nat) :
  (OsPath.join job_dir "audio.mp3" ∉ image_paths_from job_dir i prompts) /\
  (OsPath.join job_dir "video.mp4" ∉ image_paths_from job_dir i prompts) /\
  (OsPath.join job_dir "video_tmp.mp4" ∉ image_paths_from job_dir i prompts).
Proof. repeat split; apply image_path_not; try reflexivity; discriminate. Qed.

End PipelineFiles.

(** X16.  When an invocation returns and [out_dir] has no dot in it, the
    result names files that are there: each image path holds the image
    generated for its prompt, the audio path holds the bytes of the speech
    response, the video path holds a file; these paths are pairwise
    distinct, the intermediate file is gone, and no other file has
    changed. *)
Theorem pipeline_result_on_disk :
  forall (svc : services) (text template voice_type user_id out_dir : string)
         (duration : Z) (key : option string) (w : world)
         (res : ai_pipeline.pipeline_result),
    has_char "." out_dir = false ->
    fst (ai_pipeline.process_video_pipeline svc text template voice_type user_id
           out_dir duration key w) = Ok res ->
    let w' := snd (ai_pipeline.process_video_pipeline svc text template voice_type user_id
                     out_dir duration key w) in
    (forall i prompt path,
       ai_pipeline.prompts res !! i = Some prompt ->
       ai_pipeline.image_paths res !! i = Some path ->
       files w' !! path
       = Some (diffusion svc "stabilityai/stable-diffusion-xl-base-1.0" prompt)) /\
    files w' !! ai_pipeline.audio_path res
      = Some (content (http_post svc (tts_request (ai_pipeline.enhanced_text res) voice_type
                                         (effective_key key w)))) /\
    is_Some (files w' !! ai_pipeline.video_path res) /\
    files w' !! tmp_of (ai_pipeline.video_path res) = None /\
    NoDup (ai_pipeline.image_paths res
           ++ [ai_pipeline.audio_path res; ai_pipeline.video_path res]) /\
    (forall q, q ∉ ai_pipeline.image_paths res ->
               q <> ai_pipeline.audio_path res ->
               q <> ai_pipeline.video_path res ->
               q <> tmp_of (ai_pipeline.video_path res) ->
               files w' !! q = files w !! q).
Proof.
  intros svc text template voice_type user_id out_dir duration key w res Hdot Hok w'.
  subst w'. revert Hok. rewrite pipeline_unfold, pipeline_body_split. cbv zeta.
  set (job_dir := OsPath.join out_dir (drawn_job_id svc w)).
  set (enhanced := text_generation svc "gpt2" text).
  set (prompts := ai_pipeline.extract_prompts template enhanced).
  set (paths := image_paths_from job_dir 0 prompts).
  set (audio := OsPath.join job_dir "audio.mp3").
  set (video := OsPath.join job_dir "video.mp4").
  set (w3 := after_images svc job_dir text template (with_urandom_reads S w)).
  destruct (after_images_facts svc job_dir text template (with_urandom_reads S w))
    as (_ & Hf3 & He3).
  cbv zeta in Hf3. fold enhanced prompts w3 in Hf3. fold w3 in He3.
  change (files (with_urandom_reads S w)) with (files w) in Hf3.
  change (environ (with_urandom_reads S w)) with (environ w) in He3.
  pose proof (generate_audio_cases svc enhanced voice_type audio key w3) as Hc.
  cbv zeta in Hc. rewrite (effective_key_environ key w3 w He3) in Hc.
  destruct (ai_pipeline.generate_audio svc enhanced voice_type audio key w3) as [r4 w4].
  cbn [fst snd] in Hc.
  destruct Hc as [(_ & [msg ->] & _)|[(_ & _ & [msg ->] & _)|(_ & _ & -> & Hf4 & _)]];
    try discriminate.
  destruct (ai_pipeline.assemble_video svc paths audio video duration w4)
    as [r5 w5] eqn:E5.
  destruct r5 as [v|e]; [|discriminate].
  cbn [fst snd]. intros [= <-].
  cbn [ai_pipeline.prompts ai_pipeline.image_paths ai_pipeline.audio_path
       ai_pipeline.video_path ai_pipeline.enhanced_text].
  assert (Hok5 : fst (ai_pipeline.assemble_video svc paths audio video duration w4) = Ok v)
    by now rewrite E5.
  destruct (assemble_video_ok_inv svc _ _ _ _ _ _ Hok5)
    as (first & d & _ & _ & _ & _ & Hf5 & _).
  cbv zeta in Hf5. rewrite E5 in Hf5. cbn [snd] in Hf5.
  pose proof (tmp_in_job_dir svc out_dir w Hdot) as Htmp. cbv zeta in Htmp.
  fold job_dir in Htmp. fold video in Htmp.
  destruct (job_names_distinct job_dir) as (Hav & Hat & Hvt).
  fold audio video in Hav, Hat, Hvt. rewrite <- Htmp in Hat, Hvt.
  destruct (job_names_not_images job_dir prompts 0) as (Hai & Hvi & Hti).
  fold audio video paths in Hai, Hvi, Hti. rewrite <- Htmp in Hti.
  rewrite Hf5, Hf4, Hf3.
  split; [|split; [|split; [|split; [|split]]]].
  - intros i prompt path Hp Hpath.
    assert (Hin : path ∈ paths) by (eapply list_elem_of_lookup_2; exact Hpath).
    rewrite lookup_delete_ne by (intros <-; contradiction).
    rewrite !lookup_insert_ne by (intros <-; contradiction).
    unfold paths in Hpath.
    rewrite image_paths_from_lookup in Hpath by (eapply lookup_lt_Some; exact Hp).
    injection Hpath as <-.
    now apply (image_files_lookup svc _ job_dir prompts 0).
  - rewrite lookup_delete_ne by congruence.
    rewrite !lookup_insert_ne by congruence.
    apply lookup_insert_eq.
  - rewrite lookup_delete_ne by congruence. rewrite lookup_insert_eq. eauto.
  - apply lookup_delete_eq.
  - apply NoDup_app. split; [apply image_paths_from_NoDup|]. split.
    + intros x Hx Hin. apply elem_of_cons in Hin as [->|Hin]; [contradiction|].
      apply list_elem_of_singleton in Hin. subst x. contradiction.
    + apply NoDup_cons. split; [|apply NoDup_singleton].
      intros Hin. apply list_elem_of_singleton in Hin. contradiction.
  - intros q Hq Hqa Hqv Hqt.
    rewrite lookup_delete_ne by congruence.
    rewrite !lookup_insert_ne by congruence.
    now apply image_files_other.
Qed.

(** A run of X16: the sample request returns, and its audio file holds the
    two bytes of the sample response. *)
Lemma pipeline_result_on_disk_witness :
  exists res,
    fst (ai_pipeline.process_video_pipeline (Sample.svc 200) "Hello" "modern" "Rachel" "1"
           "static/videos" 60 (Some "k") Sample.w0) = Ok res /\
    files (snd (ai_pipeline.process_video_pipeline (Sample.svc 200) "Hello" "modern"
                  "Rachel" "1" "static/videos" 60 (Some "k") Sample.w0))
      !! ai_pipeline.audio_path res = Some [Byte.x01; Byte.x02].
Proof.
  eexists. split; [vm_compute; reflexivity|].
  refine (proj1 (proj2 (pipeline_result_on_disk (Sample.svc 200) "Hello" "modern" "Rachel"
                          "1" "static/videos" 60 (Some "k") Sample.w0 _ _ _))).
  - reflexivity.
  - vm_compute. reflexivity.
Defined.

(** X17.  An invocation that has a key makes exactly one speech request,
    after the images and whether or not there are any, and the text it
    sends is the whole enhanced text, not only the segments that became
    prompts. *)
Theorem pipeline_speech_request :
  forall (svc : services) (text template voice_type user_id out_dir : string)
         (duration : Z) (key : option string) (w : world),
    effective_key key w <> EmptyString ->
    let job_dir := OsPath.join out_dir (drawn_job_id svc w) in
    let enhanced_text := text_generation svc "gpt2" text in
    let prompts := ai_pipeline.extract_prompts template enhanced_text in
    exists rest,
      trace (snd (ai_pipeline.process_video_pipeline svc text template voice_type user_id
                    out_dir duration key w))
      = trace w
        ++ [EvMakedirs job_dir; EvTextGeneration "gpt2" text; EvMakedirs job_dir]
        ++ image_events "stabilityai/stable-diffusion-xl-base-1.0" job_dir 0 prompts
        ++ EvHttpPost (tts_request enhanced_text voice_type (effective_key key w)) :: rest /\
      Forall (fun e => is_post e = false) rest /\
      Forall (fun e => is_post e = false)
        (image_events "stabilityai/stable-diffusion-xl-base-1.0" job_dir 0 prompts).
Proof.
  intros svc text template voice_type user_id out_dir duration key w Hkey
         job_dir enhanced_text prompts.
  rewrite pipeline_unfold, pipeline_body_split. cbv zeta.
  fold job_dir enhanced_text prompts.
  set (audio := OsPath.join job_dir "audio.mp3").
  set (video := OsPath.join job_dir "video.mp4").
  set (w3 := after_images svc job_dir text template (with_urandom_reads S w)).
  destruct (after_images_facts svc job_dir text template (with_urandom_reads S w))
    as (Ht3 & _ & He3).
  cbv zeta in Ht3. fold enhanced_text prompts w3 in Ht3. fold w3 in He3.
  change (trace (with_urandom_reads S w)) with (trace w) in Ht3.
  change (environ (with_urandom_reads S w)) with (environ w) in He3.
  pose proof (generate_audio_cases svc enhanced_text voice_type audio key w3) as Hc.
  cbv zeta in Hc. rewrite (effective_key_environ key w3 w He3) in Hc.
  set (req := tts_request enhanced_text voice_type (effective_key key w)) in *.
  assert (Himg : Forall (fun e => is_post e = false)
                   (image_events "stabilityai/stable-diffusion-xl-base-1.0" job_dir 0 prompts)).
  { apply image_events_no_post. }
  destruct (ai_pipeline.generate_audio svc enhanced_text voice_type audio key w3) as [r4 w4].
  cbn [fst snd] in Hc.
  destruct Hc as [(Hk & _)|[(_ & _ & [msg ->] & _ & Ht4)|(_ & _ & -> & _ & Ht4)]].
  - contradiction.
  - cbn [snd]. exists []. rewrite Ht4, Ht3. rewrite <- !app_assoc.
    split; [reflexivity|]. split; [constructor | exact Himg].
  - destruct (assemble_video_traces svc (image_paths_from job_dir 0 prompts) audio video
                duration w4) as (e5 & Ht5 & first & d & Hp5 & _).
    assert (Hno : Forall (fun e => is_post e = false) e5).
    { eapply Forall_prefix; [exact Hp5|]. repeat constructor. }
    exists (EvFileWrite audio :: e5).
    split; [|split; [constructor; [reflexivity | exact Hno] | exact Himg]].
    destruct (ai_pipeline.assemble_video svc _ audio video duration w4) as [[v|e] w5];
      cbn [fst snd] in *; rewrite Ht5, Ht4, Ht3; unfold audio_events;
      rewrite <- !app_assoc; reflexivity.
Qed.

(** A run of X17 on the sample request. *)
Lemma pipeline_speech_request_witness :
  exists rest,
    trace (snd (ai_pipeline.process_video_pipeline (Sample.svc 200) "Hello" "modern"
                  "Rachel" "1" "static/videos" 60 (Some "k") Sample.w0))
    = trace Sample.w0
      ++ [EvMakedirs (OsPath.join "static/videos" (drawn_job_id (Sample.svc 200) Sample.w0));
          EvTextGeneration "gpt2" "Hello";
          EvMakedirs (OsPath.join "static/videos" (drawn_job_id (Sample.svc 200) Sample.w0))]
      ++ image_events "stabilityai/stable-diffusion-xl-base-1.0"
           (OsPath.join "static/videos" (drawn_job_id (Sample.svc 200) Sample.w0)) 0
           (ai_pipeline.extract_prompts "modern"
              (text_generation (Sample.svc 200) "gpt2" "Hello"))
      ++ EvHttpPost (tts_request (text_generation (Sample.svc 200) "gpt2" "Hello")
                       "Rachel" "k") :: rest.
Proof.
  destruct (pipeline_speech_request (Sample.svc 200) "Hello" "modern" "Rachel" "1"
              "static/videos" 60 (Some "k") Sample.w0) as (rest & H & _).
  - discriminate.
  - exists rest. exact H.
Defined.

(** X18.  When the speech request of an invocation that has a key is
    answered with a status other than 200, the invocation stops with the
    error that quotes the status and the body; no tool is run, and the
    images generated before stay on disk: nothing removes them. *)
Theorem pipeline_speech_failure_leaves_images :
  forall (svc : services) (text template voice_type user_id out_dir : string)
         (duration : Z) (key : option string) (w : world),
    let job_dir := OsPath.join out_dir (drawn_job_id svc w) in
    let enhanced_text := text_generation svc "gpt2" text in
    let prompts := ai_pipeline.extract_prompts template enhanced_text in
    let req := tts_request enhanced_text voice_type (effective_key key w) in
    let resp := http_post svc req in
    let run := ai_pipeline.process_video_pipeline svc text template voice_type user_id
                 out_dir duration key w in
    effective_key key w <> EmptyString ->
    status_code resp <> 200 ->
    fst run = Raise (RuntimeError ("TTS API error: " +:+ Py.str_of_int (status_code resp)
                                   +:+ " " +:+ resp_text resp)) /\
    trace (snd run)
      = trace w ++ [EvMakedirs job_dir; EvTextGeneration "gpt2" text; EvMakedirs job_dir]
        ++ image_events "stabilityai/stable-diffusion-xl-base-1.0" job_dir 0 prompts
        ++ [EvHttpPost req] /\
    (forall i prompt,
       prompts !! i = Some prompt ->
       files (snd run) !! OsPath.join job_dir (img_name i)
       = Some (diffusion svc "stabilityai/stable-diffusion-xl-base-1.0" prompt)).
Proof.
  intros svc text template voice_type user_id out_dir duration key w
         job_dir enhanced_text prompts req resp run Hkey Hst.
  subst run. rewrite pipeline_unfold, pipeline_body_split. cbv zeta.
  fold job_dir enhanced_text prompts.
  set (w3 := after_images svc job_dir text template (with_urandom_reads S w)).
  destruct (after_images_facts svc job_dir text template (with_urandom_reads S w))
    as (Ht3 & Hf3 & He3).
  cbv zeta in Ht3, Hf3. fold enhanced_text prompts w3 in Ht3, Hf3. fold w3 in He3.
  change (trace (with_urandom_reads S w)) with (trace w) in Ht3.
  change (files (with_urandom_reads S w)) with (files w) in Hf3.
  change (environ (with_urandom_reads S w)) with (environ w) in He3.
  rewrite generate_audio_key. cbv zeta.
  rewrite (effective_key_environ key w3 w He3). fold req. fold resp.
  destruct (Py.truthy (effective_key key w)) eqn:Hk;
    [|apply truthy_false_iff in Hk; contradiction].
  destruct (Z.eqb_spec (status_code resp) 200) as [E|_]; [contradiction|].
  cbn [negb fst snd trace files with_trace].
  split; [reflexivity|]. split; [rewrite Ht3; now rewrite <- !app_assoc|].
  intros i prompt Hp. rewrite Hf3.
  now apply (image_files_lookup svc _ job_dir prompts 0).
Qed.

(** A run of X18: the sample services with a server that answers 500. *)
Lemma pipeline_speech_failure_leaves_images_witness :
  fst (ai_pipeline.process_video_pipeline (Sample.svc 500) "Hello" "modern" "Rachel" "1"
         "static/videos" 60 (Some "k") Sample.w0)
  = Raise (RuntimeError "TTS API error: 500 oops").
Proof.
  refine (proj1 (pipeline_speech_failure_leaves_images (Sample.svc 500) "Hello" "modern"
                   "Rachel" "1" "static/videos" 60 (Some "k") Sample.w0 _ _));
    discriminate.
Defined.

(** ** Lookups and prompts *)

(** X19.  The lookup of a user by email changes nothing; what it finds is a
    persisted user with that email, and it finds none exactly when no
    persisted user has it.  On well-formed tables it finds every user by
    their email. *)
Theorem get_user_by_email_finds :
  forall (email : string) (w : world),
  exists r,
    crud.get_user_by_email email w = (Ok r, w) /\
    (forall u, r = Some u -> u ∈ users w /\ user_email u = email) /\
    (r = None <-> ~ email_known email w) /\
    (db_wf w -> forall u, u ∈ users w -> user_email u = email -> r = Some u).
Proof.
  intros email w. eexists. split; [reflexivity|].
  set (found := List.filter (fun u => String.eqb (user_email u) email) (users w)).
  assert (Hin : forall u, u ∈ found <-> u ∈ users w /\ user_email u = email).
  { intros u. subst found. rewrite !list_elem_of_In, filter_In, String.eqb_eq.
    reflexivity. }
  split; [|split].
  - intros u Hu. apply Hin. destruct found; [discriminate|].
    injection Hu as ->. now left.
  - unfold found. rewrite email_lookup_none. split.
    + intros H (u & Hu & E). exact (H u Hu E).
    + intros H u Hu E. apply H. now exists u.
  - intros (He & _ & _) u Hu E.
    destruct found as [|v found'] eqn:Ef.
    { pose proof (proj2 (Hin u) (conj Hu E)) as Hf. inversion Hf. }
    simpl. f_equal.
    assert (Hv : v ∈ users w /\ user_email v = email).
    { apply Hin. now left. }
    destruct Hv as [Hv Ev].
    apply list_elem_of_lookup in Hu as [i Hi]. apply list_elem_of_lookup in Hv as [j Hj].
    assert (i = j).
    { eapply NoDup_lookup; [exact He| |]; rewrite list_lookup_fmap.
      - rewrite Hi. reflexivity.
      - rewrite Hj. simpl. now rewrite Ev, E. }
    subst j. congruence.
Qed.

(** A run of X19: the sample user is found by her email. *)
Lemma get_user_by_email_finds_witness :
  crud.get_user_by_email "alice@example.org" Sample.w1 = (Ok (Some Sample.alice), Sample.w1).
Proof.
  destruct (get_user_by_email_finds "alice@example.org" Sample.w1) as (r & Hr & _ & _ & H).
  rewrite Hr. f_equal. f_equal. apply H.
  - split; [|split]; simpl; [apply NoDup_singleton | apply NoDup_singleton | constructor].
  - left.
  - reflexivity.
Defined.

Section SinglePrompt.

Lemma split_without_sep (c : ascii) (s : string) :
  has_char c s = false -> Py.split c s = [s].
Proof.
  induction s as [|d s IH]; [reflexivity|]. cbn [has_char]. intros H.
  apply orb_false_elim in H as [Hd Hs]. simpl. rewrite Hd, (IH Hs). reflexivity.
Qed.

End SinglePrompt.

(** X20.  An enhanced text without any period gives one prompt, made of the
    whole text with the blanks at its ends stripped, or no prompt at all
    when the text is blank. *)
Theorem extract_prompts_without_period :
  forall (template enhanced_text : string),
    has_char "." enhanced_text = false ->
    ai_pipeline.extract_prompts template enhanced_text
    = if Py.truthy (Py.strip enhanced_text)
      then [template +:+ " educational image: " +:+ Py.strip enhanced_text]
      else [].
Proof.
  intros template enhanced_text H. unfold ai_pipeline.extract_prompts, Py.slice_to.
  rewrite (split_without_sep "." _ H). simpl.
  destruct (Py.truthy (Py.strip enhanced_text)); reflexivity.
Qed.

(** A run of X20: one sentence without its period. *)
Lemma extract_prompts_without_period_witness :
  ai_pipeline.extract_prompts "modern" "  Plants make food "
  = ["modern educational image: Plants make food"].
Proof.
  exact (extract_prompts_without_period "modern" "  Plants make food " eq_refl).
Defined.
